(** * Coverage-report orchestration script ([Testprojects/generate_reports.py])

    A shallow embedding of the script and of the part of its environment the
    script can observe: the file system behind [pathlib], the child
    processes behind [subprocess.run], the two output streams and the
    process exit status.

    - Paths are lists of components; the file system is a finite map from
      paths to nodes, read through POSIX-style path resolution.
    - Child processes are opaque: a [Host] supplies their effect on the file
      system and their exit status, streams or exception.
    - Effects are threaded by a small monad: machine state in, result,
      machine state and the trace of observable events out.  [SystemExit] and
      propagating exceptions are results of their own, as in Python. *)

From Stdlib Require Import ZArith NArith Ascii String.
From stdpp Require Import base option list strings gmap.

Open Scope string_scope.
Open Scope list_scope.
Open Scope stdpp_scope.

(** ** Paths *)

(** A [pathlib.Path], as its components with the innermost first: the file
    [/a/b/c] is [["c"; "b"; "a"]] and the root is [[]].  The parent of a
    path is then its tail, and the parent of the root is the root. *)
Abbreviation path := (list string).

Definition joinpath (p : path) (component : string) : path := component :: p.
Infix "/:" := joinpath (at level 40, left associativity).

Definition parent (p : path) : path := tail p.

(** [Path.name]: the last component. *)
Definition name (p : path) : string :=
  match p with
  | c :: _ => c
  | [] => EmptyString
  end.

(** ** File system *)

Inductive kind := Directory | Regular.

Record node := Node { node_kind : kind; st_size : N }.

Abbreviation filesystem := (gmap (list string) node).

Inductive errno := ENOENT | ENOTDIR | EEXIST | EISDIR | EACCES.

Inductive exn :=
| OSError (e : errno)
| IndexError
| OtherException (msg : string).

(** [FileNotFoundError] is the [OSError] whose errno is [ENOENT]. *)
Definition is_FileNotFoundError (e : exn) : bool :=
  match e with
  | OSError ENOENT => true
  | _ => false
  end.

Definition is_OSError (e : exn) : bool :=
  match e with
  | OSError _ => true
  | _ => false
  end.

Definition is_directory (n : node) : bool :=
  match node_kind n with
  | Directory => true
  | Regular => false
  end.

(** Path resolution: every proper ancestor has to be a directory. *)
Fixpoint os_stat (fs : filesystem) (p : path) : errno + node :=
  match p with
  | [] => match fs !! p with
          | Some n => inr n
          | None => inl ENOENT
          end
  | _ :: q =>
      match os_stat fs q with
      | inl e => inl e
      | inr d =>
          if is_directory d then
            match fs !! p with
            | Some n => inr n
            | None => inl ENOENT
            end
          else inl ENOTDIR
      end
  end.

(** [Path.exists], [Path.is_dir], [Path.is_file]: false on a path that does
    not resolve. *)
Definition path_exists (fs : filesystem) (p : path) : bool :=
  match os_stat fs p with
  | inr _ => true
  | inl _ => false
  end.

Definition path_is_dir (fs : filesystem) (p : path) : bool :=
  match os_stat fs p with
  | inr n => is_directory n
  | inl _ => false
  end.

Definition path_is_file (fs : filesystem) (p : path) : bool :=
  match os_stat fs p with
  | inr n => negb (is_directory n)
  | inl _ => false
  end.

(** [os.mkdir]: one level, the parent has to be a directory and the path
    free.  [dsize] is the size the platform reports for a new directory. *)
Definition os_mkdir (dsize : N) (fs : filesystem) (p : path) : errno + filesystem :=
  match p with
  | [] => inl (if path_exists fs p then EEXIST else ENOENT)
  | _ :: q =>
      match os_stat fs q with
      | inl e => inl e
      | inr d =>
          if is_directory d then
            match fs !! p with
            | Some _ => inl EEXIST
            | None => inr (<[p := Node Directory dsize]> fs)
            end
          else inl ENOTDIR
      end
  end.

(** [Path.mkdir(parents=False, exist_ok=True)]: [FileNotFoundError] is
    raised again, any other [OSError] is swallowed when the path is a
    directory. *)
Definition mkdir_exist_ok (dsize : N) (fs : filesystem) (p : path) : errno + filesystem :=
  match os_mkdir dsize fs p with
  | inr fs' => inr fs'
  | inl ENOENT => inl ENOENT
  | inl e => if path_is_dir fs p then inr fs else inl e
  end.

(** [Path.mkdir(parents=True, exist_ok=True)]: on [FileNotFoundError] the
    parent is made the same way and the path is tried once more.  What was
    made before an error stays, so the file system comes back in both
    cases. *)
Fixpoint mkdir_parents (dsize : N) (fs : filesystem) (p : path)
  : filesystem * option errno :=
  match os_mkdir dsize fs p with
  | inr fs' => (fs', None)
  | inl ENOENT =>
      match p with
      | [] => (fs, Some ENOENT)
      | _ :: q =>
          match mkdir_parents dsize fs q with
          | (fs1, Some e) => (fs1, Some e)
          | (fs1, None) =>
              match mkdir_exist_ok dsize fs1 p with
              | inr fs2 => (fs2, None)
              | inl e => (fs1, Some e)
              end
          end
      end
  | inl e => if path_is_dir fs p then (fs, None) else (fs, Some e)
  end.

(** [os.unlink] and [Path.unlink(missing_ok=True)]: only
    [FileNotFoundError] is swallowed. *)
Definition os_unlink (fs : filesystem) (p : path) : errno + filesystem :=
  match os_stat fs p with
  | inl e => inl e
  | inr n => if is_directory n then inl EISDIR else inr (delete p fs)
  end.

Definition unlink_missing_ok (fs : filesystem) (p : path) : errno + filesystem :=
  match os_unlink fs p with
  | inl ENOENT => inr fs
  | r => r
  end.

(** ** Strings *)

Definition nl : string := String (ascii_of_nat 10) EmptyString.

(** [str.isspace] on one character of the ASCII range. *)
Definition py_isspace (a : ascii) : bool :=
  let n := nat_of_ascii a in
  ((9 <=? n) && (n <=? 13) || (28 <=? n) && (n <=? 32))%nat.

Fixpoint lstrip (s : string) : string :=
  match s with
  | String a s' => if py_isspace a then lstrip s' else s
  | EmptyString => EmptyString
  end.

(** [str.strip()]. *)
Definition strip (s : string) : string :=
  String.rev (lstrip (String.rev (lstrip s))).

(** [sep.join(l)]. *)
Fixpoint join (sep : string) (l : list string) : string :=
  match l with
  | [] => EmptyString
  | [x] => x
  | x :: l' => x +:+ sep +:+ join sep l'
  end.

(** Truth value of a [str]. *)
Definition nonempty (s : string) : bool :=
  match s with
  | EmptyString => false
  | String _ _ => true
  end.

(** ** Commands and child processes *)

(** What [run_command] is handed: a [str] or a list of arguments. *)
Inductive command :=
| CmdStr (s : string)
| CmdList (l : list string).

Definition isinstance_str (c : command) : bool :=
  match c with
  | CmdStr _ => true
  | CmdList _ => false
  end.

(** What [subprocess.run(..., capture_output=True, text=True, check=False)]
    comes back with: the child's exit status and streams, or an exception
    of the call itself. *)
Inductive run_outcome :=
| Exited (returncode : Z) (out err : string)
| Raised (e : exn).

Record CompletedProcess := {
  args : command;
  returncode : Z;
  stdout : string;
  stderr : string
}.

(** The host of the script: where the script lives, how the platform
    renders a path ([str(path)]), the size it reports for a directory, and
    the child processes.  A child sees the command, the working directory,
    the shell flag and the file system, and may depend on and change
    anything else of the outside world ([outside]). *)
Class Host := {
  SCRIPT_ROOT : path;
  path_str : path -> string;
  dir_st_size : N;
  outside : Type;
  child : command -> option path -> bool -> filesystem -> outside ->
          run_outcome * filesystem * outside
}.

(** ** Observable events *)

Inductive stream := sys_stdout | sys_stderr.

(** The pieces of a formatted line: literal text and already rendered
    strings, and the interpolated values whose rendering is Python's own
    ([str] of a command, of an [int], of an exception). *)
Inductive piece :=
| Txt (s : string)
| FmtCommand (c : command)
| FmtInt (z : Z)
| FmtExn (e : exn).

Inductive event :=
| Print (to : stream) (line : list piece)
| Mkdir (p : path)
| Unlink (p : path)
| Spawn (c : command) (cwd : option path) (shell : bool)
        (before : filesystem) (outcome : run_outcome).

Definition is_spawn (e : event) : bool :=
  match e with
  | Spawn _ _ _ _ _ => true
  | _ => false
  end.

Definition is_unlink (e : event) : bool :=
  match e with
  | Unlink _ => true
  | _ => false
  end.

(** A child that ran to completion with a non-zero exit status. *)
Definition spawn_failed (e : event) : bool :=
  match e with
  | Spawn _ _ _ _ (Exited rc _ _) => negb (rc =? 0)%Z
  | _ => false
  end.

(** ** The effect monad *)

Inductive result (A : Type) :=
| Ret (a : A)
| Exit (code : Z)
| Raise (e : exn).
Arguments Ret {A} a.
Arguments Exit {A} code.
Arguments Raise {A} e.

(** The status the interpreter ends with: 0 when the script runs to its
    end, the argument of [sys.exit], and 1 after a traceback. *)
Definition exit_status {A} (r : result A) : Z :=
  match r with
  | Ret _ => 0
  | Exit code => code
  | Raise _ => 1
  end.

Declare Scope script_scope.

Section Script.
Context {H : Host}.

Record machine := Machine { fs : filesystem; ext : outside }.

Definition M (A : Type) : Type := machine -> result A * machine * list event.

Definition ret {A} (a : A) : M A := fun s => (Ret a, s, []).

Definition bind {A B} (m : M A) (k : A -> M B) : M B := fun s =>
  match m s with
  | (Ret a, s1, t1) => let '(r, s2, t2) := k a s1 in (r, s2, t1 ++ t2)
  | (Exit code, s1, t1) => (Exit code, s1, t1)
  | (Raise e, s1, t1) => (Raise e, s1, t1)
  end.

Notation "x ← y ; z" := (bind y (fun x => z))
  (at level 20, y at level 100, z at level 200, only parsing) : script_scope.
Notation "x ;; z" := (bind x (fun _ => z))
  (at level 100, z at level 200, only parsing, right associativity) : script_scope.
Open Scope script_scope.

(** [sys.exit(code)]. *)
Definition sys_exit {A} (code : Z) : M A := fun s => (Exit code, s, []).

Definition raise {A} (e : exn) : M A := fun s => (Raise e, s, []).

(** [try: body / except ...: handlers]: [handlers e] is the handler of the
    first matching clause, if any.  [SystemExit] is no [Exception] and
    passes through; what a handler raises propagates. *)
Definition try_except {A} (body : M A) (handlers : exn -> option (M A)) : M A :=
  fun s =>
    match body s with
    | (Raise e, s1, t1) =>
        match handlers e with
        | Some h => let '(r, s2, t2) := h s1 in (r, s2, t1 ++ t2)
        | None => (Raise e, s1, t1)
        end
    | other => other
    end.

Definition print (to : stream) (line : list piece) : M unit :=
  fun s => (Ret tt, s, [Print to line]).

Definition when (b : bool) (m : M unit) : M unit := if b then m else ret tt.

(** [for x in l: body(x)]. *)
Fixpoint for_each {A} (l : list A) (body : A -> M unit) : M unit :=
  match l with
  | [] => ret tt
  | x :: l' => body x;; for_each l' body
  end.

(** *** The file system and the children, as effects *)

Definition Path_exists (p : path) : M bool := fun s => (Ret (path_exists (fs s) p), s, []).
Definition Path_is_dir (p : path) : M bool := fun s => (Ret (path_is_dir (fs s) p), s, []).
Definition Path_is_file (p : path) : M bool := fun s => (Ret (path_is_file (fs s) p), s, []).

Definition Path_stat (p : path) : M node := fun s =>
  match os_stat (fs s) p with
  | inr n => (Ret n, s, [])
  | inl e => (Raise (OSError e), s, [])
  end.

(** [p.mkdir(parents=True, exist_ok=True)]. *)
Definition Path_mkdir (p : path) : M unit := fun s =>
  match mkdir_parents dir_st_size (fs s) p with
  | (fs', None) => (Ret tt, Machine fs' (ext s), [Mkdir p])
  | (fs', Some e) => (Raise (OSError e), Machine fs' (ext s), [Mkdir p])
  end.

(** [p.unlink(missing_ok=True)]. *)
Definition Path_unlink (p : path) : M unit := fun s =>
  match unlink_missing_ok (fs s) p with
  | inr fs' => (Ret tt, Machine fs' (ext s), [Unlink p])
  | inl e => (Raise (OSError e), s, [Unlink p])
  end.

(** [subprocess.run(c, capture_output=True, text=True, cwd=cwd,
    check=False, shell=shell)]. *)
Definition subprocess_run (c : command) (cwd : option path) (shell : bool)
  : M CompletedProcess := fun s =>
  let '(o, fs', ext') := child c cwd shell (fs s) (ext s) in
  let s' := Machine fs' ext' in
  match o with
  | Exited rc out err =>
      (Ret {| args := c; returncode := rc; stdout := out; stderr := err |},
       s', [Spawn c cwd shell (fs s) o])
  | Raised e => (Raise e, s', [Spawn c cwd shell (fs s) o])
  end.

(** Python's short-circuit [a or b] and [not a] on effectful tests. *)
Definition or_else (a b : M bool) : M bool :=
  x ← a; if x then ret true else b.

Definition not_ (a : M bool) : M bool := x ← a; ret (negb x).

(** ** Constants for paths *)

Definition CSHARP_TEST_PROJECT_PATH : path :=
  SCRIPT_ROOT /: "CSharp" /: "Project_DotNetCore" /: "UnitTests" /: "UnitTests.csproj".
Definition CSHARP_COVERAGE_OUTPUT_DIR : path := SCRIPT_ROOT /: "CSharp" /: "Reports".
Definition CSHARP_COBERTURA_XML_PATH : path :=
  CSHARP_COVERAGE_OUTPUT_DIR /: "coverage.cobertura.xml".
Definition CSHARP_REPORTS_FROM_GO_TOOL_DIR : path :=
  parent SCRIPT_ROOT /: "reports" /: "csharp_project_go_tool_report".
Definition CSHARP_REPORTS_FROM_DOTNET_TOOL_DIR : path :=
  parent SCRIPT_ROOT /: "reports" /: "csharp_project_dotnet_tool_report".

Definition GO_PROJECT_TO_TEST_PATH : path := SCRIPT_ROOT /: "Go".
Definition GO_PROJECT_NATIVE_COVERAGE_FILE : path := GO_PROJECT_TO_TEST_PATH /: "coverage.out".
Definition GO_PROJECT_COBERTURA_XML_FILE : path :=
  GO_PROJECT_TO_TEST_PATH /: "coverage.cobertura.xml".
Definition GO_PROJECT_REPORTS_FROM_GO_TOOL_DIR : path :=
  parent SCRIPT_ROOT /: "reports" /: "go_project_go_tool_report".
Definition GO_PROJECT_REPORTS_FROM_DOTNET_TOOL_DIR : path :=
  parent SCRIPT_ROOT /: "reports" /: "go_project_dotnet_tool_report".

Definition GO_REPORT_GENERATOR_CMD_PATH : path :=
  parent SCRIPT_ROOT /: "go_report_generator" /: "cmd".
Definition DOTNET_REPORT_GENERATOR_DLL_PATH : path :=
  parent SCRIPT_ROOT /: "src" /: "ReportGenerator.Console.NetCore" /: "bin" /: "Debug"
    /: "net8.0" /: "ReportGenerator.dll".

(** ** The script *)

(** [command_args_or_string[0]], for the diagnostic of a missing
    executable: the first argument of a list (the first character of a
    [str]), [IndexError] when there is none. *)
Definition item0 (c : command) : option piece :=
  match c with
  | CmdList (x :: _) => Some (Txt x)
  | CmdStr (String a _) => Some (Txt (String a EmptyString))
  | _ => None
  end.

Definition first_item (c : command) : M piece :=
  match item0 c with
  | Some x => ret x
  | None => raise IndexError
  end.

(** [' '.join(map(str, command))], or the string itself. *)
Definition cmd_display_str (c : command) : string :=
  match c with
  | CmdStr s => s
  | CmdList l => join " " l
  end.

Definition run_command (command_args_or_string : command) (working_dir : option path)
    (command_name : string) (shell : bool) : M CompletedProcess :=
  let is_string_command := isinstance_str command_args_or_string in
  if shell && negb is_string_command then
    print sys_stderr [Txt "❌ Error: If shell=True, command must be a string. Got: ";
                      FmtCommand command_args_or_string];;
    sys_exit 1
  else if negb shell && is_string_command then
    print sys_stderr [Txt "❌ Error: If shell=False, command must be a list. Got: ";
                      FmtCommand command_args_or_string];;
    sys_exit 1
  else
    let cmd_display_str := cmd_display_str command_args_or_string in
    print sys_stdout [Txt "Executing "; Txt command_name; Txt ": ";
                      Txt (String.substring 0 100 cmd_display_str);
                      Txt (if (100 <? String.length cmd_display_str)%nat
                           then "..." else EmptyString)];;
    match working_dir with
    | Some d => print sys_stdout [Txt "  (in "; Txt (path_str d); Txt ")"]
    | None => ret tt
    end;;
    try_except
      (process ← subprocess_run command_args_or_string working_dir shell;
       when (nonempty (stdout process))
         (print sys_stdout [Txt "  Stdout from "; Txt command_name; Txt ":"; Txt nl;
                            Txt (strip (stdout process))]);;
       when (nonempty (stderr process))
         (print sys_stderr [Txt "  Stderr from "; Txt command_name; Txt ":"; Txt nl;
                            Txt (strip (stderr process))]);;
       when (negb (returncode process =? 0)%Z)
         (print sys_stderr [Txt "❌ Error executing "; Txt command_name; Txt ": ";
                            FmtCommand (args process)];;
          print sys_stderr [Txt "  Return code: "; FmtInt (returncode process)];;
          sys_exit 1);;
       ret process)
      (fun e =>
         if is_FileNotFoundError e then Some (
           executable ← (if shell then ret (FmtCommand command_args_or_string)
                         else first_item command_args_or_string);
           print sys_stderr [Txt "❌ Error: Command not found - "; executable;
                             Txt ". Ensure it's in your PATH."];;
           sys_exit 1)
         else Some (
           print sys_stderr [Txt "❌ An unexpected error occurred during ";
                             Txt command_name; Txt ": "; FmtExn e];;
           sys_exit 1)).

Definition ensure_dir (dir_path : path) : M unit :=
  try_except
    (Path_mkdir dir_path)
    (fun e =>
       if is_OSError e then Some (
         print sys_stderr [Txt "❌ Error creating directory "; Txt (path_str dir_path);
                           Txt ": "; FmtExn e];;
         sys_exit 1)
       else None).

Definition check_file_generated (file_path : path) (file_description : string) : M bool :=
  missing ← or_else (not_ (Path_exists file_path))
                    (st ← Path_stat file_path; ret (st_size st =? 0)%N);
  if missing then
    print sys_stderr [Txt "❌ Error: "; Txt file_description;
                      Txt " not generated or is empty at "; Txt (path_str file_path)];;
    ret false
  else
    print sys_stdout [Txt "✅ "; Txt file_description; Txt " generated: ";
                      Txt (path_str file_path)];;
    ret true.

(** The double quote inside the shell command line. *)
Definition dq : string := String (ascii_of_nat 34) EmptyString.

Definition dotnet_test_command : command :=
  CmdList ["dotnet"; "test"; path_str CSHARP_TEST_PROJECT_PATH;
           "--configuration"; "Release"; "--verbosity"; "minimal";
           "/p:CollectCoverage=true"; "/p:CoverletOutputFormat=cobertura";
           "/p:CoverletOutput=" +:+ path_str CSHARP_COBERTURA_XML_PATH].

Definition go_report_command_csharp : command :=
  CmdList ["go"; "run"; ".";
           "-report=" +:+ path_str CSHARP_COBERTURA_XML_PATH;
           "-output=" +:+ path_str CSHARP_REPORTS_FROM_GO_TOOL_DIR;
           "-reporttypes=TextSummary"].

Definition dotnet_rg_command_csharp : command :=
  let dotnet_report_types := "TextSummary" in
  CmdList ["dotnet"; path_str DOTNET_REPORT_GENERATOR_DLL_PATH;
           "-reports:" +:+ path_str CSHARP_COBERTURA_XML_PATH;
           "-targetdir:" +:+ path_str CSHARP_REPORTS_FROM_DOTNET_TOOL_DIR;
           "-reporttypes:" +:+ dotnet_report_types].

Definition run_csharp_workflow : M unit :=
  print sys_stdout [Txt nl; Txt "--- Starting C# Project Workflow ---"];;
  for_each [CSHARP_COVERAGE_OUTPUT_DIR; CSHARP_REPORTS_FROM_GO_TOOL_DIR;
            CSHARP_REPORTS_FROM_DOTNET_TOOL_DIR] ensure_dir;;
  print sys_stdout [Txt "C# workflow output directories ensured."];;

  print sys_stdout [Txt nl; Txt "--- Generating Cobertura XML for C# project ---"];;
  run_command dotnet_test_command None "dotnet test (C#)" false;;
  ok ← check_file_generated CSHARP_COBERTURA_XML_PATH "C# Cobertura XML";
  when (negb ok) (sys_exit 1);;

  print sys_stdout [Txt nl; Txt "--- Generating report with Go tool for C# Cobertura ---"];;
  run_command go_report_command_csharp (Some GO_REPORT_GENERATOR_CMD_PATH)
    "Go Report Generator (for C#)" false;;
  csharp_go_summary_ok ←
    check_file_generated (CSHARP_REPORTS_FROM_GO_TOOL_DIR /: "Summary.txt")
      "C# Go-tool TextSummary";

  print sys_stdout [Txt nl; Txt "--- Generating report with .NET tool for C# Cobertura ---"];;
  run_command dotnet_rg_command_csharp None ".NET ReportGenerator (for C#)" false;;
  csharp_dotnet_summary_ok ←
    check_file_generated (CSHARP_REPORTS_FROM_DOTNET_TOOL_DIR /: "Summary.txt")
      "C# .NET-tool TextSummary";

  when (negb (csharp_go_summary_ok && csharp_dotnet_summary_ok))
    (print sys_stderr
       [Txt "❌ C# workflow: One or more TextSummary reports failed to generate."];;
     sys_exit 1);;
  print sys_stdout [Txt "--- C# Project Workflow Finished Successfully ---"].

Definition go_test_command : command :=
  CmdList ["go"; "test"; "-coverprofile=" +:+ name GO_PROJECT_NATIVE_COVERAGE_FILE; "./..."].

Definition gocover_cobertura_command_str : command :=
  CmdStr (("gocover-cobertura.exe < " +:+ dq +:+ name GO_PROJECT_NATIVE_COVERAGE_FILE +:+ dq)
          +:+ (" > " +:+ dq +:+ name GO_PROJECT_COBERTURA_XML_FILE +:+ dq)).

Definition go_report_command_go_proj : command :=
  CmdList ["go"; "run"; ".";
           "-report=" +:+ path_str GO_PROJECT_COBERTURA_XML_FILE;
           "-output=" +:+ path_str GO_PROJECT_REPORTS_FROM_GO_TOOL_DIR;
           "-reporttypes=TextSummary"].

Definition dotnet_rg_command_go_proj : command :=
  let dotnet_report_types_go_proj := "TextSummary" in
  CmdList ["dotnet"; path_str DOTNET_REPORT_GENERATOR_DLL_PATH;
           "-reports:" +:+ path_str GO_PROJECT_COBERTURA_XML_FILE;
           "-targetdir:" +:+ path_str GO_PROJECT_REPORTS_FROM_DOTNET_TOOL_DIR;
           "-reporttypes:" +:+ dotnet_report_types_go_proj].

Definition run_go_project_workflow : M unit :=
  print sys_stdout [Txt nl; Txt "--- Starting Go Project Workflow ---"];;
  for_each [GO_PROJECT_REPORTS_FROM_GO_TOOL_DIR; GO_PROJECT_REPORTS_FROM_DOTNET_TOOL_DIR]
    ensure_dir;;
  missing ← not_ (Path_exists GO_PROJECT_TO_TEST_PATH);
  when missing
    (print sys_stderr [Txt "❌ Error: Go project to test not found at ";
                       Txt (path_str GO_PROJECT_TO_TEST_PATH)];;
     sys_exit 1);;
  print sys_stdout [Txt "Go workflow output directories ensured."];;

  Path_unlink GO_PROJECT_NATIVE_COVERAGE_FILE;;
  Path_unlink GO_PROJECT_COBERTURA_XML_FILE;;
  print sys_stdout [Txt "Old Go coverage files removed."];;

  print sys_stdout [Txt nl; Txt "--- Generating native Go coverage ---"];;
  run_command go_test_command (Some GO_PROJECT_TO_TEST_PATH) "go test (Go project)" false;;
  ok ← check_file_generated GO_PROJECT_NATIVE_COVERAGE_FILE "Go native coverage";
  when (negb ok) (sys_exit 1);;

  print sys_stdout [Txt nl; Txt "--- Converting Go native coverage to Cobertura XML ---"];;
  run_command gocover_cobertura_command_str (Some GO_PROJECT_TO_TEST_PATH)
    "gocover-cobertura" true;;
  ok ← check_file_generated GO_PROJECT_COBERTURA_XML_FILE "Go project Cobertura XML";
  when (negb ok) (sys_exit 1);;

  print sys_stdout [Txt nl; Txt "--- Generating report with Go tool for Go Cobertura ---"];;
  run_command go_report_command_go_proj (Some GO_REPORT_GENERATOR_CMD_PATH)
    "Go Report Generator (for Go project)" false;;
  go_proj_go_summary_ok ←
    check_file_generated (GO_PROJECT_REPORTS_FROM_GO_TOOL_DIR /: "Summary.txt")
      "Go-project Go-tool TextSummary";

  print sys_stdout [Txt nl; Txt "--- Generating report with .NET tool for Go Cobertura ---"];;
  run_command dotnet_rg_command_go_proj None ".NET ReportGenerator (for Go project)" false;;
  go_proj_dotnet_summary_ok ←
    check_file_generated (GO_PROJECT_REPORTS_FROM_DOTNET_TOOL_DIR /: "Summary.txt")
      "Go-project .NET-tool TextSummary";

  when (negb (go_proj_go_summary_ok && go_proj_dotnet_summary_ok))
    (print sys_stderr
       [Txt "❌ Go project workflow: One or more TextSummary reports failed to generate."];;
     sys_exit 1);;
  print sys_stdout [Txt "--- Go Project Workflow Finished Successfully ---"].

Definition main : M unit :=
  print sys_stdout [Txt "Python script for C# and Go project coverage and reporting."];;

  let go_main_file := GO_REPORT_GENERATOR_CMD_PATH /: "main.go" in
  missing ← or_else (not_ (Path_is_dir GO_REPORT_GENERATOR_CMD_PATH))
                    (not_ (Path_is_file go_main_file));
  when missing
    (print sys_stderr [Txt "❌ Error: Go Report Generator 'main.go' not found in ";
                       Txt (path_str GO_REPORT_GENERATOR_CMD_PATH);
                       Txt " or path is not a directory."];;
     sys_exit 1);;
  missing ← not_ (Path_exists DOTNET_REPORT_GENERATOR_DLL_PATH);
  when missing
    (print sys_stderr [Txt "❌ Error: .NET ReportGenerator.dll not found: ";
                       Txt (path_str DOTNET_REPORT_GENERATOR_DLL_PATH)];;
     sys_exit 1);;
  print sys_stdout [Txt "Common report generation tools found."];;

  run_csharp_workflow;;
  run_go_project_workflow;;

  print sys_stdout [Txt nl; Txt "All workflows completed successfully."].

End Script.

(** * What a run shows

    The vocabulary the properties are stated in. *)

(** [sys.exit] is only ever called with 1. *)
Definition tidy {A} (r : result A) : Prop := forall code, r = Exit code -> code = 1%Z.

(** A property of the result and the trace of a run follows the sequencing
    when it holds of every step whose events are [ok], passes from a run
    that stopped to whatever it is part of, and extends over what came
    before. *)
Class Sequential (ok : event -> Prop) (P : forall A, result A -> list event -> Prop) := {
  seq_leaf : forall A (r : result A) t, tidy r -> Forall ok t -> P A r t;
  seq_pass_exit : forall A B code t, P A (Exit code) t -> P B (Exit code) t;
  seq_pass_raise : forall A B e t, P A (Raise e) t -> P B (Raise e) t;
  seq_after_ret : forall A B (a : A) t1 (r : result B) t2,
    P A (Ret a) t1 -> P B r t2 -> P B r (t1 ++ t2);
  seq_after_raise : forall A B e t1 (r : result B) t2,
    P A (Raise e) t1 -> P B r t2 -> P B r (t1 ++ t2)
}.

(** Every [sys.exit] of the run is a [sys.exit(1)]. *)
Definition exits_with_1 (A : Type) (r : result A) (t : list event) : Prop := tidy r.

(** Every event of the trace satisfies [Q]. *)
Definition always (Q : event -> Prop) (A : Type) (r : result A) (t : list event) : Prop :=
  Forall Q t.

(** The captured streams as [run_command] prints them: each stream that is
    not empty, stripped, on the stream of the same name. *)
Definition stream_lines (name out err : string) : list event :=
  (if nonempty out
   then [Print sys_stdout [Txt "  Stdout from "; Txt name; Txt ":"; Txt nl; Txt (strip out)]]
   else []) ++
  (if nonempty err
   then [Print sys_stderr [Txt "  Stderr from "; Txt name; Txt ":"; Txt nl; Txt (strip err)]]
   else []).

(** The diagnostic of a child that exited with [rc <> 0]: the command and
    the exit status. *)
Definition failure_lines (name : string) (c : command) (rc : Z) : list event :=
  [Print sys_stderr [Txt "❌ Error executing "; Txt name; Txt ": "; FmtCommand c];
   Print sys_stderr [Txt "  Return code: "; FmtInt rc]].

(** The diagnostic of a command handed over in the wrong mode. *)
Definition mode_error_line (c : command) (shell : bool) : event :=
  if shell
  then Print sys_stderr [Txt "❌ Error: If shell=True, command must be a string. Got: ";
                         FmtCommand c]
  else Print sys_stderr [Txt "❌ Error: If shell=False, command must be a list. Got: ";
                         FmtCommand c].

(** No child of the trace failed. *)
Definition clean (t : list event) : Prop := Forall (fun e => spawn_failed e = false) t.

(** No child failed so far, or one did and all that followed is its
    streams, the diagnostic and [sys.exit(1)]. *)
Definition fail_fast (A : Type) (r : result A) (t : list event) : Prop :=
  clean t \/
  (r = Exit 1 /\
   exists pre c wd shell before rc out err name,
     t = pre ++ Spawn c wd shell before (Exited rc out err)
              :: stream_lines name out err ++ failure_lines name c rc /\
     clean pre).

(** What [check_file_generated] tests: the path resolves and its size is
    not zero. *)
Definition artifact_ok (fs : filesystem) (p : path) : bool :=
  match os_stat fs p with
  | inr n => negb (st_size n =? 0)%N
  | inl _ => false
  end.

(** The steps of a run: the events that change or test the world (the
    directories made, the files unlinked, the children run, the verdicts of
    [check_file_generated]), without the lines that only narrate. *)
Definition is_step (e : event) : bool :=
  match e with
  | Print sys_stdout (Txt h :: _) => String.eqb h "✅ "
  | Print sys_stderr (Txt h :: _) => String.eqb h "❌ Error: "
  | Print _ _ => false
  | _ => true
  end.

Definition steps (t : list event) : list event := List.filter is_step t.

Definition is_mkdir (e : event) : bool :=
  match e with
  | Mkdir _ => true
  | _ => false
  end.

(** The command of a child. *)
Definition command_of (e : event) : option command :=
  match e with
  | Spawn c _ _ _ _ => Some c
  | _ => None
  end.

(** What a child came back with. *)
Definition outcome_of (e : event) : option run_outcome :=
  match e with
  | Spawn _ _ _ _ o => Some o
  | _ => None
  end.



(** A file system is tree shaped when every entry lies in a directory. *)
Definition parent_is_dir (fs : filesystem) (p : path) : bool :=
  match p with
  | [] => true
  | _ :: q => match fs !! q with Some d => is_directory d | None => false end
  end.

Definition tree_shaped (fs : filesystem) : Prop :=
  forallb (fun pn : path * node => parent_is_dir fs pn.1) (map_to_list fs) = true.

(** The claim about the order of failure and report generator B, as it is
    stated: once the check of report generator A's summary has failed,
    report generator B is not run any more. *)
Definition stops_before_generator_B (t : list event) (failed_A : event)
    (generator_B : command) : Prop :=
  forall i j e,
    steps t !! i = Some failed_A ->
    steps t !! j = Some e -> command_of e = Some generator_B ->
    j < i.


Section Observations.
Context {H : Host}.

(** The three components of a run. *)
Definition outcome {A} (x : result A * machine * list event) : result A := x.1.1.
Definition final {A} (x : result A * machine * list event) : machine := x.1.2.
Definition trace {A} (x : result A * machine * list event) : list event := x.2.

(** [after t x]: the run [x], with [t] before it. *)
Definition after {A} (t : list event) (x : result A * machine * list event)
  : result A * machine * list event :=
  (outcome x, final x, t ++ trace x).

Definition holds (P : forall A, result A -> list event -> Prop) {A} (m : M A) : Prop :=
  forall s, P A (outcome (m s)) (trace (m s)).

(** The lines [run_command] prints before the child starts. *)
Definition announce (c : command) (wd : option path) (name : string) : list event :=
  Print sys_stdout [Txt "Executing "; Txt name; Txt ": ";
                    Txt (String.substring 0 100 (cmd_display_str c));
                    Txt (if (100 <? String.length (cmd_display_str c))%nat
                         then "..." else EmptyString)]
  :: match wd with
     | Some d => [Print sys_stdout [Txt "  (in "; Txt (path_str d); Txt ")"]]
     | None => []
     end.

Definition check_ok_line (p : path) (description : string) : event :=
  Print sys_stdout [Txt "✅ "; Txt description; Txt " generated: "; Txt (path_str p)].

Definition check_failed_line (p : path) (description : string) : event :=
  Print sys_stderr [Txt "❌ Error: "; Txt description;
                    Txt " not generated or is empty at "; Txt (path_str p)].

(** The diagnostic of [ensure_dir]. *)
Definition mkdir_error_line (p : path) (e : errno) : event :=
  Print sys_stderr [Txt "❌ Error creating directory "; Txt (path_str p);
                    Txt ": "; FmtExn (OSError e)].

(** The diagnostic of a workflow whose summaries are not both there. *)
Definition csharp_summary_error : event :=
  Print sys_stderr
    [Txt "❌ C# workflow: One or more TextSummary reports failed to generate."].

Definition go_summary_error : event :=
  Print sys_stderr
    [Txt "❌ Go project workflow: One or more TextSummary reports failed to generate."].

(** What follows the failed check that is step [i] of a run with trace [t]
    and final file system [f] when the failure is not acted on at once: the
    next step is the run of [generator_B]; if that fails, it is the last
    step; if it exits with 0, its summary is checked on the file system it
    left, that check is the last step, and the last line of the run is
    [diagnostic]. *)
Definition deferred (t : list event) (f : filesystem) (i : nat) (generator_B : command)
    (summary_B : path) (description_B : string) (diagnostic : event) : Prop :=
  exists before o,
    steps t !! S i = Some (Spawn generator_B None false before o) /\
    ((forall out err, o <> Exited 0 out err) -> length (steps t) = S (S i)) /\
    (forall out err, o = Exited 0 out err ->
       steps t !! S (S i) =
         Some (if artifact_ok f summary_B
               then check_ok_line summary_B description_B
               else check_failed_line summary_B description_B) /\
       length (steps t) = S (S (S i)) /\
       last t = Some diagnostic).

Definition go_start_line : event :=
  Print sys_stdout [Txt nl; Txt "--- Starting Go Project Workflow ---"].

(** The Go workflow up to its two report directories.  If the first or
    the second cannot be made, the run is the diagnostic of that directory
    and [sys.exit(1)], on the file system [mkdir] left; if both are made,
    [then_ fs2] tells how the run goes on, [fs2] being the file system that
    has both. *)
Definition go_directories_then (s : machine) (then_ : filesystem -> Prop) : Prop :=
  match mkdir_parents dir_st_size (fs s) GO_PROJECT_REPORTS_FROM_GO_TOOL_DIR with
  | (fs1, Some e) =>
      run_go_project_workflow s =
        (Exit 1, Machine fs1 (ext s),
         [go_start_line; Mkdir GO_PROJECT_REPORTS_FROM_GO_TOOL_DIR;
          mkdir_error_line GO_PROJECT_REPORTS_FROM_GO_TOOL_DIR e])
  | (fs1, None) =>
      match mkdir_parents dir_st_size fs1 GO_PROJECT_REPORTS_FROM_DOTNET_TOOL_DIR with
      | (fs2, Some e) =>
          run_go_project_workflow s =
            (Exit 1, Machine fs2 (ext s),
             [go_start_line; Mkdir GO_PROJECT_REPORTS_FROM_GO_TOOL_DIR;
              Mkdir GO_PROJECT_REPORTS_FROM_DOTNET_TOOL_DIR;
              mkdir_error_line GO_PROJECT_REPORTS_FROM_DOTNET_TOOL_DIR e])
      | (fs2, None) => then_ fs2
      end
  end.

(** The Go project is missing: the run ends after the two directories, with
    the line that says so. *)
Definition go_project_not_found (s : machine) (fs2 : filesystem) : Prop :=
  run_go_project_workflow s =
    (Exit 1, Machine fs2 (ext s),
     [go_start_line; Mkdir GO_PROJECT_REPORTS_FROM_GO_TOOL_DIR;
      Mkdir GO_PROJECT_REPORTS_FROM_DOTNET_TOOL_DIR;
      Print sys_stderr [Txt "❌ Error: Go project to test not found at ";
                        Txt (path_str GO_PROJECT_TO_TEST_PATH)]]) /\
  path_is_dir fs2 GO_PROJECT_REPORTS_FROM_GO_TOOL_DIR = true /\
  path_is_dir fs2 GO_PROJECT_REPORTS_FROM_DOTNET_TOOL_DIR = true.







End Observations.

(** * A concrete host

    A repository at [/repo] with the script in [/repo/Testprojects], both
    report generators in place and an empty Go project.  The children
    follow a plan: the [n]-th child exits with the [n]-th status of the plan
    and, if the plan says so, writes the artifact its step is there for. *)

Definition demo_root : path := ["Testprojects"; "repo"].

Definition posix_str (p : path) : string := "/" +:+ join "/" (rev p).

Definition demo_artifact (n : nat) : path :=
  match n with
  | 0 => ["coverage.cobertura.xml"; "Reports"; "CSharp"; "Testprojects"; "repo"]
  | 1 => ["Summary.txt"; "csharp_project_go_tool_report"; "reports"; "repo"]
  | 2 => ["Summary.txt"; "csharp_project_dotnet_tool_report"; "reports"; "repo"]
  | 3 => ["coverage.out"; "Go"; "Testprojects"; "repo"]
  | 4 => ["coverage.cobertura.xml"; "Go"; "Testprojects"; "repo"]
  | 5 => ["Summary.txt"; "go_project_go_tool_report"; "reports"; "repo"]
  | _ => ["Summary.txt"; "go_project_dotnet_tool_report"; "reports"; "repo"]
  end.

Definition demo_child (plan : list (Z * bool)) (c : command) (cwd : option path)
    (shell : bool) (fs : filesystem) (n : nat) : run_outcome * filesystem * nat :=
  match (plan !! n : option (Z * bool)) with
  | Some (rc, writes) =>
      (Exited rc "ok" EmptyString,
       if writes then <[demo_artifact n := Node Regular 10]> fs else fs,
       S n)
  | None => (Raised (OSError ENOENT), fs, S n)
  end.

Definition demo_host (plan : list (Z * bool)) : Host :=
  {| SCRIPT_ROOT := demo_root; path_str := posix_str; dir_st_size := 4096;
     outside := nat; child := demo_child plan |}.

Definition mkdirs (fs : filesystem) (l : list path) : filesystem :=
  foldl (fun fs p => (mkdir_parents 4096 fs p).1) fs l.

Definition demo_fs : filesystem :=
  <[ ["main.go"; "cmd"; "go_report_generator"; "repo"] := Node Regular 1 ]>
  (<[ ["ReportGenerator.dll"; "net8.0"; "Debug"; "bin"; "ReportGenerator.Console.NetCore";
       "src"; "repo"] := Node Regular 1 ]>
  (mkdirs {[ [] := Node Directory 4096 ]}
     [ ["Go"; "Testprojects"; "repo"]; ["cmd"; "go_report_generator"; "repo"];
       ["net8.0"; "Debug"; "bin"; "ReportGenerator.Console.NetCore"; "src"; "repo"] ])).

Definition demo_machine (plan : list (Z * bool)) : @machine (demo_host plan) :=
  @Machine (demo_host plan) demo_fs 0.

(** Every child succeeds and writes its artifact. *)
Definition all_good : list (Z * bool) := replicate 7 (0%Z, true).

(** The test run of the C# project exits with status 1. *)
Definition tests_fail : list (Z * bool) := [(1%Z, true)].

(** The Go tool exits with 0 and writes no summary for the C# project. *)
Definition summary_missing : list (Z * bool) := [(0%Z, true); (0%Z, false); (0%Z, true)].

(** The test run of the C# project exits with 0 and writes no coverage. *)
Definition coverage_not_written : list (Z * bool) :=
  [(0%Z, false); (0%Z, true); (0%Z, true)].

(** A file system with the root directory only. *)
Definition bare_fs : filesystem := {[ [] := Node Directory 4096 ]}.

(** The concrete file system, with a coverage file left by an earlier run
    of the C# workflow. *)
Definition stale_fs : filesystem :=
  <[ ["coverage.cobertura.xml"; "Reports"; "CSharp"; "Testprojects"; "repo"]
     := Node Regular 7 ]>
  (mkdirs demo_fs [ ["Reports"; "CSharp"; "Testprojects"; "repo"] ]).



Definition bare_machine (plan : list (Z * bool)) : @machine (demo_host plan) :=
  @Machine (demo_host plan) bare_fs 0.

Definition stale_machine (plan : list (Z * bool)) : @machine (demo_host plan) :=
  @Machine (demo_host plan) stale_fs 0.

(** * Properties of the file system *)

Section FileSystem.
Implicit Types (fs : filesystem) (p q k : path) (n d : node).

Lemma suffix_cons_cases {A} (l1 l2 : list A) (x : A) :
  l1 `suffix_of` x :: l2 -> l1 = x :: l2 \/ l1 `suffix_of` l2.
Proof.
  intros [[|y l] Hl]; simpl in Hl.
  - by left.
  - right. exists l. congruence.
Qed.

(** Resolution reads the map at the suffixes of the path only. *)
Lemma os_stat_ext fs fs' q :
  (forall k, k `suffix_of` q -> fs' !! k = fs !! k) ->
  os_stat fs' q = os_stat fs q.
Proof.
  induction q as [|c q IH]; intros Hk; simpl.
  - by rewrite (Hk []).
  - rewrite IH by (intros k Hs; apply Hk, suffix_cons_r, Hs).
    by rewrite (Hk (c :: q)).
Qed.

Lemma os_stat_inv fs c q n :
  os_stat fs (c :: q) = inr n ->
  exists d, os_stat fs q = inr d /\ is_directory d = true /\ fs !! (c :: q) = Some n.
Proof.
  simpl. destruct (os_stat fs q) as [e|d]; [done|].
  destruct (is_directory d) eqn:Hd; [|done].
  destruct (fs !! (c :: q)) eqn:Hl; [|done].
  intros [= ->]. by exists d.
Qed.

Lemma os_stat_lookup fs p n : os_stat fs p = inr n -> fs !! p = Some n.
Proof.
  destruct p as [|c q].
  - simpl. by destruct (fs !! []); intros [= ->].
  - intros (d & _ & _ & Hl)%os_stat_inv. done.
Qed.

(** Whatever lies on a path that resolves is in the map, and all of it but
    the end is a directory. *)
Lemma os_stat_suffix fs q n k :
  os_stat fs q = inr n -> k `suffix_of` q ->
  exists m, os_stat fs k = inr m /\ (k <> q -> is_directory m = true).
Proof.
  revert n. induction q as [|c q IH]; intros n Hq Hs.
  - apply suffix_nil_inv in Hs as ->. by exists n.
  - apply suffix_cons_cases in Hs as [->|Hs]; [by exists n|].
    apply os_stat_inv in Hq as (d & Hq & Hd & _).
    destruct (IH d Hq Hs) as (m & Hm & Hdir). exists m. split; [done|].
    intros _. destruct (decide (k = q)) as [->|Hne].
    + rewrite Hq in Hm. by injection Hm as <-.
    + by apply Hdir.
Qed.

Lemma path_is_dir_exists fs p : path_is_dir fs p = true -> path_exists fs p = true.
Proof. unfold path_is_dir, path_exists. by destruct (os_stat fs p). Qed.

Lemma path_is_dir_parent fs c q :
  path_is_dir fs (c :: q) = true -> path_is_dir fs q = true.
Proof.
  unfold path_is_dir. destruct (os_stat fs (c :: q)) as [|n] eqn:Hs; [done|].
  apply os_stat_inv in Hs as (d & -> & Hd & _). done.
Qed.

(** A new entry at a free key hides nothing that resolved before. *)
Lemma os_stat_insert_fresh fs k x q n :
  fs !! k = None -> os_stat fs q = inr n -> os_stat (<[k := x]> fs) q = inr n.
Proof.
  intros Hk Hq. rewrite <- Hq. apply os_stat_ext. intros k' Hs.
  destruct (os_stat_suffix _ _ _ _ Hq Hs) as (m & Hm%os_stat_lookup & _).
  apply lookup_insert_ne. congruence.
Qed.

(** A deleted entry makes nothing resolve that did not before. *)
Lemma os_stat_delete fs k q n :
  os_stat (delete k fs) q = inr n -> os_stat fs q = inr n.
Proof.
  revert n. induction q as [|c q IH]; intros n.
  - simpl. destruct (delete k fs !! []) eqn:Hl; [|done].
    apply lookup_delete_Some in Hl as [_ ->]. done.
  - intros (d & Hq & Hd & Hl)%os_stat_inv. simpl.
    rewrite (IH _ Hq), Hd. apply lookup_delete_Some in Hl as [_ ->]. done.
Qed.

(** Deleting what is not a directory leaves every directory in place. *)
Lemma os_stat_delete_file fs k m q n :
  fs !! k = Some m -> is_directory m = false ->
  os_stat fs q = inr n -> is_directory n = true ->
  os_stat (delete k fs) q = inr n.
Proof.
  intros Hk Hm Hq Hn. rewrite <- Hq. apply os_stat_ext. intros k' Hs.
  apply lookup_delete_ne. intros <-.
  destruct (os_stat_suffix _ _ _ _ Hq Hs) as (m' & Hm'  & Hdir).
  pose proof (os_stat_lookup _ _ _ Hm') as Hl.
  assert (m' = m) as -> by congruence.
  destruct (decide (k = q)) as [->|Hne].
  - congruence.
  - rewrite Hdir in Hm; done.
Qed.

Lemma os_mkdir_inv dsize fs p fs' :
  os_mkdir dsize fs p = inr fs' ->
  exists c q d, p = c :: q /\ os_stat fs q = inr d /\ is_directory d = true /\
    fs !! p = None /\ fs' = <[p := Node Directory dsize]> fs.
Proof.
  destruct p as [|c q]; simpl; [done|].
  destruct (os_stat fs q) as [|d] eqn:Hq; [done|].
  destruct (is_directory d) eqn:Hd; [|done].
  destruct (fs !! (c :: q)) eqn:Hl; [done|].
  intros [= <-]. by exists c, q, d.
Qed.

Lemma os_mkdir_is_dir dsize fs p fs' :
  os_mkdir dsize fs p = inr fs' -> path_is_dir fs' p = true.
Proof.
  intros (c & q & d & -> & Hq & Hd & Hl & ->)%os_mkdir_inv.
  unfold path_is_dir. simpl.
  rewrite (os_stat_insert_fresh _ _ _ _ _ Hl Hq), Hd.
  by rewrite lookup_insert_eq.
Qed.

Lemma os_mkdir_on_dir dsize fs p :
  path_is_dir fs p = true -> os_mkdir dsize fs p = inl EEXIST.
Proof.
  intros Hp. destruct p as [|c q]; simpl.
  - by rewrite (path_is_dir_exists _ _ Hp).
  - unfold path_is_dir in Hp.
    destruct (os_stat fs (c :: q)) as [|n] eqn:Hs; [done|].
    apply os_stat_inv in Hs as (d & -> & -> & ->). done.
Qed.

(** On a directory, [mkdir(parents=True, exist_ok=True)] does nothing. *)
Lemma mkdir_parents_on_dir dsize fs p :
  path_is_dir fs p = true -> mkdir_parents dsize fs p = (fs, None).
Proof.
  intros Hp. destruct p; cbn [mkdir_parents];
    rewrite (os_mkdir_on_dir _ _ _ Hp); by rewrite ?Hp.
Qed.

Lemma mkdir_exist_ok_is_dir dsize fs p fs' :
  mkdir_exist_ok dsize fs p = inr fs' -> path_is_dir fs' p = true.
Proof.
  unfold mkdir_exist_ok. destruct (os_mkdir dsize fs p) as [e|fs1] eqn:Hm.
  - destruct (path_is_dir fs p) eqn:Hd; destruct e; intros [= <-]; done.
  - intros [= <-]. by eapply os_mkdir_is_dir.
Qed.

(** When it succeeds, the path is a directory (and with it every
    ancestor, see [path_is_dir_parent]). *)
Lemma mkdir_parents_is_dir dsize fs p fs' :
  mkdir_parents dsize fs p = (fs', None) -> path_is_dir fs' p = true.
Proof.
  revert fs'. induction p as [|c q IH]; intros fs'; cbn [mkdir_parents];
    (destruct (os_mkdir dsize fs _) as [e|fs1] eqn:Hm;
      [|intros [= <-]; by eapply os_mkdir_is_dir]);
    destruct e; try (destruct (path_is_dir fs _) eqn:Hd; intros [= <-]; done).
  - done.
  - destruct (mkdir_parents dsize fs q) as [fs1 [e|]]; [done|].
    destruct (mkdir_exist_ok dsize fs1 (c :: q)) as [|fs2] eqn:Hx; [done|].
    intros [= <-]. by eapply mkdir_exist_ok_is_dir.
Qed.

Lemma path_is_dir_unresolved fs c q e :
  os_stat fs q = inl e -> path_is_dir fs (c :: q) = false.
Proof. unfold path_is_dir. simpl. by intros ->. Qed.

Lemma path_is_dir_under_file fs c q d :
  os_stat fs q = inr d -> is_directory d = false -> path_is_dir fs (c :: q) = false.
Proof. unfold path_is_dir. simpl. by intros -> ->. Qed.

(** A second [mkdir(parents=True, exist_ok=True)] on the same path finds
    nothing left to do, whether the first one succeeded or not. *)
Lemma mkdir_parents_stable dsize fs p fs' r :
  mkdir_parents dsize fs p = (fs', r) ->
  exists r', mkdir_parents dsize fs' p = (fs', r') /\ (r = None <-> r' = None).
Proof.
  destruct r as [e|]; cycle 1.
  { intros Hd%mkdir_parents_is_dir. exists None.
    by rewrite (mkdir_parents_on_dir _ _ _ Hd). }
  revert fs' e. induction p as [|c q IH]; intros fs' e; cbn [mkdir_parents].
  - intros Hm.
    assert (fs' = fs) as ->
      by (destruct (os_mkdir dsize fs []) as [[]|]; simplify_eq;
          try destruct (path_is_dir fs []); simplify_eq; done).
    exists (Some e). split; [|done]. cbn [mkdir_parents]. done.
  - destruct (os_mkdir dsize fs (c :: q)) as [e0|] eqn:Hm; [|done].
    assert (e0 <> ENOENT ->
            (if path_is_dir fs (c :: q) then (fs, None) else (fs, Some e0)) = (fs', Some e) ->
            exists r', mkdir_parents dsize fs' (c :: q) = (fs', r') /\ (Some e = None <-> r' = None))
      as Hsame.
    { intros Hne Hr. destruct (path_is_dir fs (c :: q)) eqn:Hd; [done|].
      injection Hr as <- <-. exists (Some e0). split; [|done].
      cbn [mkdir_parents]. rewrite Hm, Hd. by destruct e0. }
    destruct e0; try (apply Hsame; done). clear Hsame.
    destruct (mkdir_parents dsize fs q) as [fs1 [e1|]] eqn:Hq.
    + intros [= <- <-]. destruct (IH _ _ eq_refl) as (r' & Hq' & Hr').
      destruct r' as [e2|]; [|by destruct Hr' as [_ Hr']; specialize (Hr' eq_refl)].
      cbn [mkdir_parents]. unfold os_mkdir at 1.
      destruct (os_stat fs1 q) as [e3|d] eqn:Hs.
      * rewrite (path_is_dir_unresolved _ c _ _ Hs), Hq'.
        destruct e3; eexists; (split; [reflexivity|done]).
      * destruct (is_directory d) eqn:Hd.
        -- assert (path_is_dir fs1 q = true) as Hdir
             by (unfold path_is_dir; by rewrite Hs).
           rewrite (mkdir_parents_on_dir _ _ _ Hdir) in Hq'. done.
        -- rewrite (path_is_dir_under_file _ c _ _ Hs Hd).
           eexists; (split; [reflexivity|done]).
    + pose proof (mkdir_parents_is_dir _ _ _ _ Hq) as Hdir.
      unfold mkdir_exist_ok.
      destruct (os_mkdir dsize fs1 (c :: q)) as [e0|] eqn:Hm1; [|done].
      assert (e0 <> ENOENT) as Hne.
      { intros ->. unfold os_mkdir, path_is_dir in *.
        destruct (os_stat fs1 q) as [|d]; [done|].
        rewrite Hdir in Hm1. by destruct (fs1 !! (c :: q)). }
      destruct (path_is_dir fs1 (c :: q)) eqn:Hd; [by destruct e0|].
      intros Hr. assert (fs' = fs1 /\ e = e0) as [-> ->] by (by destruct e0; simplify_eq).
      exists (Some e0). split; [|done].
      cbn [mkdir_parents]. rewrite Hm1, Hd. by destruct e0.
Qed.

(** What resolved before [mkdir] still resolves, to the same node. *)
Lemma os_mkdir_preserves dsize fs p fs' q n :
  os_mkdir dsize fs p = inr fs' -> os_stat fs q = inr n -> os_stat fs' q = inr n.
Proof.
  intros (c & q' & d & -> & _ & _ & Hl & ->)%os_mkdir_inv Hq.
  by apply os_stat_insert_fresh.
Qed.

Lemma mkdir_exist_ok_preserves dsize fs p fs' q n :
  mkdir_exist_ok dsize fs p = inr fs' -> os_stat fs q = inr n -> os_stat fs' q = inr n.
Proof.
  unfold mkdir_exist_ok. destruct (os_mkdir dsize fs p) as [e|fs1] eqn:Hm.
  - destruct (path_is_dir fs p), e; intros [= <-]; done.
  - intros [= <-]. by eapply os_mkdir_preserves.
Qed.

Lemma mkdir_parents_preserves dsize fs p fs' r q n :
  mkdir_parents dsize fs p = (fs', r) -> os_stat fs q = inr n -> os_stat fs' q = inr n.
Proof.
  revert fs' r. induction p as [|c p IH]; intros fs' r; cbn [mkdir_parents];
    (destruct (os_mkdir dsize fs _) as [e|fs1] eqn:Hm;
      [|intros [= <- <-]; by eapply os_mkdir_preserves]);
    destruct e; try (destruct (path_is_dir fs _); intros [= <- <-]; done).
  - by intros [= <- <-].
  - destruct (mkdir_parents dsize fs p) as [fs1 [e|]] eqn:Hp.
    + intros [= <- <-] Hq. by eapply IH.
    + destruct (mkdir_exist_ok dsize fs1 (c :: p)) as [|fs2] eqn:Hx;
        intros [= <- <-] Hq.
      * by eapply IH.
      * eapply mkdir_exist_ok_preserves; [done|]. by eapply IH.
Qed.

(** [mkdir] writes on the path and its ancestors only. *)
Lemma os_mkdir_lookup_other dsize fs p fs' k :
  os_mkdir dsize fs p = inr fs' -> k <> p -> fs' !! k = fs !! k.
Proof.
  intros (c & q' & d & -> & _ & _ & Hl & ->)%os_mkdir_inv Hk.
  by apply lookup_insert_ne.
Qed.

Lemma mkdir_parents_lookup_other dsize fs p fs' r k :
  mkdir_parents dsize fs p = (fs', r) -> ~ k `suffix_of` p -> fs' !! k = fs !! k.
Proof.
  revert fs' r. induction p as [|c p IH]; intros fs' r; cbn [mkdir_parents];
    (destruct (os_mkdir dsize fs _) as [e|fs1] eqn:Hm;
      [|intros [= <- <-] Hk; eapply os_mkdir_lookup_other; [done|by intros ->]]);
    destruct e; try (destruct (path_is_dir fs _); intros [= <- <-]; done).
  - by intros [= <- <-].
  - assert (~ k `suffix_of` c :: p -> ~ k `suffix_of` p) as Hs
      by (intros Hk Hp; by apply Hk, suffix_cons_r).
    destruct (mkdir_parents dsize fs p) as [fs1 [e|]] eqn:Hp.
    + intros [= <- <-] Hk. by eapply IH, Hs.
    + unfold mkdir_exist_ok.
      destruct (os_mkdir dsize fs1 (c :: p)) as [e|fs2] eqn:Hx.
      * destruct (path_is_dir fs1 (c :: p)), e; intros [= <- <-] Hk; by eapply IH, Hs.
      * intros [= <- <-] Hk.
        rewrite (os_mkdir_lookup_other _ _ _ _ _ Hx) by (by intros ->).
        by eapply IH, Hs.
Qed.

Lemma unlink_missing_ok_inv fs p fs' :
  unlink_missing_ok fs p = inr fs' ->
  (os_stat fs p = inl ENOENT /\ fs' = fs) \/
  (exists n, os_stat fs p = inr n /\ is_directory n = false /\ fs' = delete p fs).
Proof.
  unfold unlink_missing_ok, os_unlink.
  destruct (os_stat fs p) as [e|n] eqn:Hs.
  - destruct e; intros [= <-]. by left.
  - destruct (is_directory n) eqn:Hd; intros [= <-]. right. by exists n.
Qed.

(** After [unlink(missing_ok=True)] the path is gone. *)
Lemma unlink_missing_ok_gone fs p fs' :
  unlink_missing_ok fs p = inr fs' -> path_exists fs' p = false.
Proof.
  intros [[Hs ->]|(n & Hs & Hd & ->)]%unlink_missing_ok_inv; unfold path_exists.
  - by rewrite Hs.
  - destruct (os_stat (delete p fs) p) as [|m] eqn:Hm; [done|].
    apply os_stat_lookup in Hm. by rewrite lookup_delete_eq in Hm.
Qed.

(** It brings nothing into existence, *)
Lemma unlink_missing_ok_absent fs p fs' q :
  unlink_missing_ok fs p = inr fs' -> path_exists fs q = false -> path_exists fs' q = false.
Proof.
  intros [[Hs ->]|(n & Hs & Hd & ->)]%unlink_missing_ok_inv; [done|].
  unfold path_exists. destruct (os_stat (delete p fs) q) as [|m] eqn:Hm; [done|].
  by rewrite (os_stat_delete _ _ _ _ Hm).
Qed.

(** and leaves the directories alone. *)
Lemma unlink_missing_ok_dir fs p fs' q :
  unlink_missing_ok fs p = inr fs' -> path_is_dir fs q = true -> path_is_dir fs' q = true.
Proof.
  intros [[Hs ->]|(n & Hs & Hd & ->)]%unlink_missing_ok_inv; [done|].
  unfold path_is_dir. destruct (os_stat fs q) as [|m] eqn:Hm; [done|]. intros Hdir.
  by rewrite (os_stat_delete_file _ _ _ _ _ (os_stat_lookup _ _ _ Hs) Hd Hm Hdir).
Qed.


Lemma path_is_dir_suffix fs0 p q :
  path_is_dir fs0 p = true -> q `suffix_of` p -> path_is_dir fs0 q = true.
Proof.
  induction p as [|c p IH]; intros Hp Hq.
  - by apply suffix_nil_inv in Hq as ->.
  - apply suffix_cons_cases in Hq as [->|Hq]; [done|].
    apply IH; [|done]. by eapply path_is_dir_parent.
Qed.

Lemma mkdir_parents_keeps_dir dsize fs0 p fs' r q :
  mkdir_parents dsize fs0 p = (fs', r) -> path_is_dir fs0 q = true ->
  path_is_dir fs' q = true.
Proof.
  unfold path_is_dir. intros Hm. destruct (os_stat fs0 q) as [|n] eqn:Hq; [done|].
  by rewrite (mkdir_parents_preserves _ _ _ _ _ _ _ Hm Hq).
Qed.





(** and what it raises is never [FileNotFoundError]. *)
Lemma unlink_missing_ok_errno fs0 p e : unlink_missing_ok fs0 p = inl e -> e <> ENOENT.
Proof.
  unfold unlink_missing_ok. destruct (os_unlink fs0 p) as [[]|]; by intros [= <-].
Qed.

Lemma tree_shaped_resolves fs p n :
  tree_shaped fs -> fs !! p = Some n -> os_stat fs p = inr n.
Proof.
  intros Ht. revert n. induction p as [|c q IH]; intros n Hl; simpl.
  - by rewrite Hl.
  - unfold tree_shaped in Ht. rewrite forallb_forall in Ht.
    specialize (Ht (c :: q, n)). simpl in Ht.
    destruct (fs !! q) as [d|] eqn:Hq.
    + rewrite (IH d eq_refl), Ht, Hl; [done|].
      apply list_elem_of_In, elem_of_map_to_list. done.
    + discriminate Ht. apply list_elem_of_In, elem_of_map_to_list. done.
Qed.

End FileSystem.

(** * Reasoning about runs *)

Section Runs.
Context {H : Host}.
Implicit Types (s : machine) (t : list event).

Lemma run_eta {A} (x : result A * machine * list event) :
  x = (outcome x, final x, trace x).
Proof. by destruct x as [[??]?]. Qed.

Lemma bind_ret_run {A B} (m : M A) (k : A -> M B) s a s1 t1 :
  m s = (Ret a, s1, t1) ->
  bind m k s = (outcome (k a s1), final (k a s1), t1 ++ trace (k a s1)).
Proof. unfold bind. intros ->. by destruct (k a s1) as [[??]?]. Qed.

Lemma bind_exit_run {A B} (m : M A) (k : A -> M B) s code s1 t1 :
  m s = (Exit code, s1, t1) -> bind m k s = (Exit code, s1, t1).
Proof. unfold bind. by intros ->. Qed.

Lemma bind_raise_run {A B} (m : M A) (k : A -> M B) s e s1 t1 :
  m s = (Raise e, s1, t1) -> bind m k s = (Raise e, s1, t1).
Proof. unfold bind. by intros ->. Qed.

(** A sequence that runs to its end ran both of its halves to their end. *)
Lemma bind_ret_inv {A B} (m : M A) (k : A -> M B) s b s' t :
  bind m k s = (Ret b, s', t) ->
  exists a s1 t1 t2, m s = (Ret a, s1, t1) /\ k a s1 = (Ret b, s', t2) /\ t = t1 ++ t2.
Proof.
  unfold bind. destruct (m s) as [[[a|code|e] s1] t1]; [|done..].
  destruct (k a s1) as [[r s2] t2] eqn:Hk. intros [= -> -> <-].
  by exists a, s1, t1, t2.
Qed.

(** ** Properties that follow the sequencing *)

Section Sequential.
Context (ok : event -> Prop) (P : forall A, result A -> list event -> Prop).
Context `{!Sequential ok P}.

Lemma holds_ret {A} (a : A) : holds P (ret a).
Proof. intros s. by apply seq_leaf. Qed.

Lemma holds_sys_exit {A} : holds P (@sys_exit _ A 1).
Proof. intros s. apply seq_leaf; [|done]. by intros ? [= <-]. Qed.

Lemma holds_raise {A} e : holds P (@raise _ A e).
Proof. intros s. by apply seq_leaf. Qed.

Lemma holds_print to line : ok (Print to line) -> holds P (print to line).
Proof. intros Hok s. apply seq_leaf; [done|]. by repeat constructor. Qed.

Lemma holds_Path_mkdir p : ok (Mkdir p) -> holds P (Path_mkdir p).
Proof.
  intros Hok s. unfold Path_mkdir.
  destruct (mkdir_parents _ _ _) as [fs' [e|]]; (apply seq_leaf; [done|]);
    by repeat constructor.
Qed.

Lemma holds_Path_unlink p : ok (Unlink p) -> holds P (Path_unlink p).
Proof.
  intros Hok s. unfold Path_unlink.
  destruct (unlink_missing_ok _ _) as [e|fs']; (apply seq_leaf; [done|]);
    by repeat constructor.
Qed.

Lemma holds_subprocess_run c cwd shell :
  (forall before o, ok (Spawn c cwd shell before o)) ->
  holds P (subprocess_run c cwd shell).
Proof.
  intros Hok s. unfold subprocess_run.
  destruct (child _ _ _ _ _) as [[[rc out err|e] fs'] ext']; (apply seq_leaf; [done|]);
    by repeat constructor.
Qed.

Lemma holds_bind {A B} (m : M A) (k : A -> M B) :
  holds P m -> (forall a, holds P (k a)) -> holds P (bind m k).
Proof.
  intros Hm Hk s. specialize (Hm s). unfold bind.
  destruct (m s) as [[[a|code|e] s1] t1]; unfold outcome, trace in *; simpl in *.
  - specialize (Hk a s1). destruct (k a s1) as [[r s2] t2]. simpl in *.
    by eapply seq_after_ret.
  - by eapply seq_pass_exit.
  - by eapply seq_pass_raise.
Qed.

Lemma holds_try_except {A} (body : M A) handlers :
  holds P body -> (forall e h, handlers e = Some h -> holds P h) ->
  holds P (try_except body handlers).
Proof.
  intros Hb Hh s. specialize (Hb s). unfold try_except.
  destruct (body s) as [[[a|code|e] s1] t1]; unfold outcome, trace in *; simpl in *;
    [done..|].
  destruct (handlers e) as [h|] eqn:He; [|done].
  specialize (Hh e h He s1). destruct (h s1) as [[r s2] t2]. simpl in *.
  by eapply seq_after_raise.
Qed.

Lemma holds_when b (m : M unit) : holds P m -> holds P (when b m).
Proof. destruct b; [done|]. intros _. apply holds_ret. Qed.

Lemma holds_for_each {A} (l : list A) body :
  (forall x, holds P (body x)) -> holds P (for_each l body).
Proof.
  intros Hb. induction l as [|x l IH]; simpl.
  - apply holds_ret.
  - by apply holds_bind.
Qed.

Lemma holds_or_else a b : holds P a -> holds P b -> holds P (or_else a b).
Proof.
  intros Ha Hb. apply holds_bind; [done|]. intros []; [apply holds_ret|done].
Qed.

Lemma holds_not_ a : holds P a -> holds P (not_ a).
Proof. intros Ha. apply holds_bind; [done|]. intros ?. apply holds_ret. Qed.

Lemma holds_Path_exists p : holds P (Path_exists p).
Proof. intros s. by apply seq_leaf. Qed.

Lemma holds_Path_is_dir p : holds P (Path_is_dir p).
Proof. intros s. by apply seq_leaf. Qed.

Lemma holds_Path_is_file p : holds P (Path_is_file p).
Proof. intros s. by apply seq_leaf. Qed.

Lemma holds_Path_stat p : holds P (Path_stat p).
Proof.
  intros s. unfold Path_stat.
  destruct (os_stat (fs s) p); by apply seq_leaf.
Qed.

End Sequential.

#[global] Instance exits_with_1_sequential : Sequential (fun _ => True) exits_with_1.
Proof.
  split; unfold exits_with_1, tidy; try done.
  - intros A B code t Hc code' [= <-]. by apply Hc.
Qed.

#[global] Instance always_sequential Q : Sequential Q (always Q).
Proof.
  split; unfold always; try done.
  - intros. by apply Forall_app.
  - intros. by apply Forall_app.
Qed.

#[global] Instance fail_fast_sequential :
  Sequential (fun e => spawn_failed e = false) fail_fast.
Proof.
  split; unfold fail_fast.
  - intros A r t _ Ht. by left.
  - intros A B code t [Hc|[[= ->] Ht]]; [by left|by right].
  - intros A B e t [Hc|[[=] _]]. by left.
  - intros A B a t1 r t2 [Hc|[[=] _]] [Hc2|[-> Ht]].
    + left. by apply Forall_app.
    + right. split; [done|].
      destruct Ht as (pre & c & wd & sh & before & rc & out & err & name & -> & Hpre).
      exists (t1 ++ pre), c, wd, sh, before, rc, out, err, name.
      split; [by rewrite <- app_assoc|by apply Forall_app].
  - intros A B e t1 r t2 [Hc|[[=] _]] [Hc2|[-> Ht]].
    + left. by apply Forall_app.
    + right. split; [done|].
      destruct Ht as (pre & c & wd & sh & before & rc & out & err & name & -> & Hpre).
      exists (t1 ++ pre), c, wd, sh, before, rc, out, err, name.
      split; [by rewrite <- app_assoc|by apply Forall_app].
Qed.

(** ** What the three helpers of the script do, step by step *)

Lemma run_command_mode_error c wd name shell s :
  isinstance_str c = negb shell ->
  run_command c wd name shell s = (Exit 1, s, [mode_error_line c shell]).
Proof. unfold run_command. intros ->. by destruct shell. Qed.

Lemma run_command_eq c wd name shell s :
  isinstance_str c = shell ->
  run_command c wd name shell s =
    let '(o, fs', ext') := child c wd shell (fs s) (ext s) in
    let s' := Machine fs' ext' in
    let head := announce c wd name ++ [Spawn c wd shell (fs s) o] in
    match o with
    | Exited rc out err =>
        if (rc =? 0)%Z
        then (Ret {| args := c; returncode := rc; stdout := out; stderr := err |},
              s', head ++ stream_lines name out err)
        else (Exit 1, s', head ++ stream_lines name out err ++ failure_lines name c rc)
    | Raised e =>
        if is_FileNotFoundError e then
          match (if shell then Some (FmtCommand c) else item0 c) with
          | Some executable =>
              (Exit 1, s',
               head ++ [Print sys_stderr [Txt "❌ Error: Command not found - "; executable;
                                          Txt ". Ensure it's in your PATH."]])
          | None => (Raise IndexError, s', head)
          end
        else
          (Exit 1, s',
           head ++ [Print sys_stderr [Txt "❌ An unexpected error occurred during ";
                                      Txt name; Txt ": "; FmtExn e]])
    end.
Proof.
  intros Hmode. unfold run_command. rewrite Hmode.
  replace (shell && negb shell) with false by by destruct shell.
  replace (negb shell && shell) with false by by destruct shell.
  unfold announce, stream_lines, failure_lines, first_item.
  destruct wd as [d|];
    cbv beta iota zeta delta [bind try_except subprocess_run print when ret sys_exit raise];
    destruct (child c _ shell (fs s) (ext s)) as [[[rc out err|e] fs'] ext'];
    cbn [stdout stderr returncode args].
  1,3: destruct (rc =? 0)%Z, (nonempty out), (nonempty err); reflexivity.
  all: destruct (is_FileNotFoundError e); [|reflexivity];
    destruct shell; [reflexivity|]; destruct (item0 c); reflexivity.
Qed.

(** [ensure_dir]: one [mkdir(parents=True, exist_ok=True)], and on an
    [OSError] a diagnostic and [sys.exit(1)]. *)
Lemma ensure_dir_eq p s :
  ensure_dir p s =
    match mkdir_parents dir_st_size (fs s) p with
    | (fs', None) => (Ret tt, Machine fs' (ext s), [Mkdir p])
    | (fs', Some e) =>
        (Exit 1, Machine fs' (ext s),
         [Mkdir p;
          Print sys_stderr [Txt "❌ Error creating directory "; Txt (path_str p);
                            Txt ": "; FmtExn (OSError e)]])
    end.
Proof.
  unfold ensure_dir, try_except, Path_mkdir.
  by destruct (mkdir_parents dir_st_size (fs s) p) as [fs' [e|]].
Qed.

Lemma check_file_generated_eq p description s :
  check_file_generated p description s =
    if artifact_ok (fs s) p
    then (Ret true, s, [check_ok_line p description])
    else (Ret false, s, [check_failed_line p description]).
Proof.
  unfold check_file_generated, artifact_ok, or_else, not_, bind, Path_exists, Path_stat,
    path_exists.
  destruct (os_stat (fs s) p) as [e|n] eqn:Hs; [reflexivity|].
  cbv beta iota zeta delta [ret negb print]. rewrite Hs.
  by destruct (st_size n =? 0)%N.
Qed.

Lemma announce_no_spawn c wd name : Forall (fun e => is_spawn e = false) (announce c wd name).
Proof. unfold announce. destruct wd; by repeat constructor. Qed.

Lemma stream_lines_no_spawn name out err :
  Forall (fun e => is_spawn e = false) (stream_lines name out err).
Proof. unfold stream_lines. destruct (nonempty out), (nonempty err); by repeat constructor. Qed.

Lemma failure_lines_no_spawn name c rc :
  Forall (fun e => is_spawn e = false) (failure_lines name c rc).
Proof. by repeat constructor. Qed.

Lemma no_spawn_clean t : Forall (fun e => is_spawn e = false) t -> clean t.
Proof. intros Ht. eapply Forall_impl; [exact Ht|]. by intros []. Qed.

Lemma run_command_fail_fast c wd name shell : holds fail_fast (run_command c wd name shell).
Proof.
  intros s. destruct (decide (isinstance_str c = shell)) as [Hmode|Hmode].
  - rewrite (run_command_eq _ _ _ _ _ Hmode).
    destruct (child c wd shell (fs s) (ext s)) as [[[rc out err|e] fs'] ext'].
    + destruct (rc =? 0)%Z eqn:Hrc; unfold outcome, trace; cbn [fst snd].
      * left. unfold clean. rewrite <- !app_assoc, !Forall_app. split_and?.
        -- apply no_spawn_clean, announce_no_spawn.
        -- constructor; [|done]. simpl. by rewrite Hrc.
        -- apply no_spawn_clean, stream_lines_no_spawn.
      * right. split; [done|].
        exists (announce c wd name), c, wd, shell, (fs s), rc, out, err, name.
        split; [by rewrite <- app_assoc|]. apply no_spawn_clean, announce_no_spawn.
    + left. unfold outcome, trace.
      assert (clean (announce c wd name ++ [Spawn c wd shell (fs s) (Raised e)])) as Hhead.
      { apply Forall_app. split; [apply no_spawn_clean, announce_no_spawn|].
        by repeat constructor. }
      destruct (is_FileNotFoundError e); [destruct (if shell then _ else _)|];
        cbn [fst snd]; try done; (apply Forall_app; split; [done|by repeat constructor]).
  - rewrite run_command_mode_error by (destruct (isinstance_str c), shell; done).
    left. unfold trace, mode_error_line. simpl. destruct shell; by repeat constructor.
Qed.

End Runs.

(** Walks down a script along its sequencing; [leaf] closes what is left of
    it, the calls the caller has a lemma for. *)
Ltac walk leaf :=
  repeat first
    [ progress intros
    | leaf
    | eapply holds_ret | eapply holds_sys_exit | eapply holds_raise
    | eapply holds_Path_exists | eapply holds_Path_is_dir | eapply holds_Path_is_file
    | eapply holds_Path_stat
    | eapply holds_bind | eapply holds_when | eapply holds_for_each
    | eapply holds_or_else | eapply holds_not_ | eapply holds_try_except
    | eapply holds_print | eapply holds_Path_mkdir | eapply holds_Path_unlink
    | eapply holds_subprocess_run
    | match goal with
      | |- Sequential _ _ => typeclasses eauto
      | Hh : (if ?b then _ else _) = Some _ |- _ => destruct b; simplify_eq
      | |- holds _ (if ?b then _ else _) => destruct b
      | |- holds _ (match ?x with _ => _ end) => destruct x
      end ].

Section Pipeline.
Context {H : Host}.

Lemma ensure_dir_fail_fast p : holds fail_fast (ensure_dir p).
Proof. unfold ensure_dir. walk fail; done. Qed.

Lemma check_file_generated_fail_fast p d : holds fail_fast (check_file_generated p d).
Proof. unfold check_file_generated. walk fail; done. Qed.

Lemma run_csharp_workflow_fail_fast : holds fail_fast run_csharp_workflow.
Proof.
  unfold run_csharp_workflow.
  walk ltac:(first [apply run_command_fail_fast | apply ensure_dir_fail_fast
                   | apply check_file_generated_fail_fast]); done.
Qed.

Lemma run_go_project_workflow_fail_fast : holds fail_fast run_go_project_workflow.
Proof.
  unfold run_go_project_workflow.
  walk ltac:(first [apply run_command_fail_fast | apply ensure_dir_fail_fast
                   | apply check_file_generated_fail_fast]); done.
Qed.

Lemma main_fail_fast : holds fail_fast main.
Proof.
  unfold main.
  walk ltac:(first [apply run_csharp_workflow_fail_fast
                   | apply run_go_project_workflow_fail_fast]); done.
Qed.



End Pipeline.

(** * Running a script step by step *)

Section Stepping.
Context {H : Host}.
Implicit Types (s : machine) (t : list event).

Lemma outcome_after {A} t (x : result A * machine * list event) :
  outcome (after t x) = outcome x.
Proof. done. Qed.

Lemma final_after {A} t (x : result A * machine * list event) :
  final (after t x) = final x.
Proof. done. Qed.

Lemma trace_after {A} t (x : result A * machine * list event) :
  trace (after t x) = t ++ trace x.
Proof. done. Qed.

Lemma after_eq {A} t (x : result A * machine * list event) r s' t' :
  after t x = (r, s', t') <-> exists t2, x = (r, s', t2) /\ t' = t ++ t2.
Proof.
  destruct x as [[r0 s0] t0]. unfold after, outcome, final, trace. simpl. split.
  - intros [= -> -> <-]. by exists t0.
  - by intros (t2 & [= -> -> ->] & ->).
Qed.

Lemma steps_app t1 t2 : steps (t1 ++ t2) = steps t1 ++ steps t2.
Proof. apply List.filter_app. Qed.

Lemma steps_cons e t : steps (e :: t) = (if is_step e then [e] else []) ++ steps t.
Proof. unfold steps. simpl. by destruct (is_step e). Qed.

Lemma steps_nil : steps [] = [].
Proof. done. Qed.

Lemma steps_announce c wd name : steps (announce c wd name) = [].
Proof. unfold announce. by destruct wd. Qed.

Lemma steps_stream_lines name out err : steps (stream_lines name out err) = [].
Proof. unfold stream_lines. by destruct (nonempty out), (nonempty err). Qed.

Lemma steps_failure_lines name c rc : steps (failure_lines name c rc) = [].
Proof. done. Qed.

(** The monad laws the normal form of a script rests on. *)
Lemma bind_bind {A B C} (m : M A) (k1 : A -> M B) (k2 : B -> M C) s :
  bind (bind m k1) k2 s = bind m (fun a => bind (k1 a) k2) s.
Proof.
  unfold bind. destruct (m s) as [[[a|code|e] s1] t1]; [|done..].
  destruct (k1 a s1) as [[[b|code|e] s2] t2]; [|done..].
  destruct (k2 b s2) as [[r s3] t3]. by rewrite app_assoc.
Qed.

Lemma bind_ret {A B} (a : A) (k : A -> M B) s : bind (ret a) k s = k a s.
Proof. unfold bind, ret. by destruct (k a s) as [[r s2] t2]. Qed.

Lemma print_eq to line s : print to line s = (Ret tt, s, [Print to line]).
Proof. done. Qed.

(** One step of each kind, in front of whatever follows. *)
Lemma bind_print {B} to line (k : unit -> M B) s :
  bind (print to line) k s = after [Print to line] (k tt s).
Proof.
  unfold bind, print, after, outcome, final, trace. by destruct (k tt s) as [[r s2] t2].
Qed.

Lemma bind_sys_exit {A B} code (k : A -> M B) s :
  bind (sys_exit code) k s = (Exit code, s, []).
Proof. done. Qed.

Lemma bind_Path_exists {B} p (k : bool -> M B) s :
  bind (Path_exists p) k s = k (path_exists (fs s) p) s.
Proof. unfold bind, Path_exists. by destruct (k _ s) as [[r s2] t2]. Qed.

Lemma bind_Path_is_dir {B} p (k : bool -> M B) s :
  bind (Path_is_dir p) k s = k (path_is_dir (fs s) p) s.
Proof. unfold bind, Path_is_dir. by destruct (k _ s) as [[r s2] t2]. Qed.

Lemma bind_Path_is_file {B} p (k : bool -> M B) s :
  bind (Path_is_file p) k s = k (path_is_file (fs s) p) s.
Proof. unfold bind, Path_is_file. by destruct (k _ s) as [[r s2] t2]. Qed.

Lemma bind_Path_unlink {B} p (k : unit -> M B) s :
  bind (Path_unlink p) k s =
    match unlink_missing_ok (fs s) p with
    | inr fs' => after [Unlink p] (k tt (Machine fs' (ext s)))
    | inl e => (Raise (OSError e), s, [Unlink p])
    end.
Proof.
  unfold bind, Path_unlink. destruct (unlink_missing_ok (fs s) p) as [e|fs']; [done|].
  unfold after, outcome, final, trace. by destruct (k tt _) as [[r s2] t2].
Qed.

Lemma bind_ensure_dir {B} p (k : unit -> M B) s :
  bind (ensure_dir p) k s =
    match mkdir_parents dir_st_size (fs s) p with
    | (fs', None) => after [Mkdir p] (k tt (Machine fs' (ext s)))
    | (fs', Some e) =>
        (Exit 1, Machine fs' (ext s),
         [Mkdir p;
          Print sys_stderr [Txt "❌ Error creating directory "; Txt (path_str p);
                            Txt ": "; FmtExn (OSError e)]])
    end.
Proof.
  unfold bind. rewrite ensure_dir_eq.
  destruct (mkdir_parents dir_st_size (fs s) p) as [fs' [e|]]; [done|].
  unfold after, outcome, final, trace. by destruct (k tt _) as [[r s2] t2].
Qed.

Lemma bind_check_file_generated {B} p description (k : bool -> M B) s :
  bind (check_file_generated p description) k s =
    if artifact_ok (fs s) p
    then after [check_ok_line p description] (k true s)
    else after [check_failed_line p description] (k false s).
Proof.
  unfold bind. rewrite check_file_generated_eq.
  unfold after, outcome, final, trace.
  destruct (artifact_ok (fs s) p); by destruct (k _ s) as [[r s2] t2].
Qed.

(** [run_command] on a command in the right mode: the child exits with 0
    and the script goes on, or the run ends there with [sys.exit(1)]. *)
Lemma bind_run_command {B} c wd name shell (k : CompletedProcess -> M B) s :
  isinstance_str c = shell -> c <> CmdList [] ->
  (exists out err fs' ext',
     child c wd shell (fs s) (ext s) = (Exited 0 out err, fs', ext') /\
     bind (run_command c wd name shell) k s =
       after (announce c wd name ++
              Spawn c wd shell (fs s) (Exited 0 out err) :: stream_lines name out err)
         (k {| args := c; returncode := 0; stdout := out; stderr := err |}
            (Machine fs' ext'))) \/
  (exists s' o rest,
     bind (run_command c wd name shell) k s =
       (Exit 1, s', announce c wd name ++ Spawn c wd shell (fs s) o :: rest) /\
     steps rest = [] /\ Forall (fun e => is_spawn e = false) rest /\
     forall out err, o <> Exited 0 out err).
Proof.
  intros Hmode Hc. unfold bind. rewrite (run_command_eq _ _ _ _ _ Hmode).
  destruct (child c wd shell (fs s) (ext s)) as [[[rc out err|e] fs'] ext'];
    cbv beta iota zeta.
  - destruct (Z.eqb_spec rc 0) as [->|Hrc].
    + left. exists out, err, fs', ext'. split; [done|].
      unfold after, outcome, final, trace. destruct (k _ _) as [[r s2] t2].
      by rewrite <- !app_assoc.
    + right. eexists _, _, _. rewrite <- app_assoc. split; [reflexivity|].
      rewrite steps_app, steps_stream_lines, steps_failure_lines.
      split_and?; [done| |congruence].
      apply Forall_app. split; [apply stream_lines_no_spawn|apply failure_lines_no_spawn].
  - right. destruct (is_FileNotFoundError e).
    + assert (exists x, (if shell then Some (FmtCommand c) else item0 c) = Some x) as [x ->].
      { destruct shell; [by eexists|]. destruct c as [|[|]]; simplify_eq/=; by eexists. }
      eexists _, _, _. rewrite <- app_assoc. split; [reflexivity|].
      split_and?; [done|by repeat constructor|done].
    + eexists _, _, _. rewrite <- app_assoc. split; [reflexivity|].
      split_and?; [done|by repeat constructor|done].
Qed.




End Stepping.

(** Brings the script in front into its normal form: sequences nested to
    the right, no [ret] in front, the steps that cannot fail taken. *)
Ltac norm :=
  repeat first
    [ rewrite bind_bind | rewrite bind_ret | rewrite bind_print
    | rewrite bind_Path_exists | rewrite bind_Path_is_dir | rewrite bind_Path_is_file
    | rewrite bind_sys_exit | rewrite print_eq
    | progress cbn [for_each when fs ext negb andb] ].

(** Takes the step in front, one goal for each way it can go. *)
Ltac step :=
  match goal with
  | |- context [bind (ensure_dir ?p) ?k ?s] =>
      rewrite (bind_ensure_dir p k s);
      let fs' := fresh "f" in let e := fresh "e" in let Hm := fresh "Hmk" in
      destruct (mkdir_parents dir_st_size (fs s) p) as [fs' [e|]] eqn:Hm
  | |- context [bind (check_file_generated ?p ?d) ?k ?s] =>
      rewrite (bind_check_file_generated p d k s);
      let Hc := fresh "Hck" in destruct (artifact_ok (fs s) p) eqn:Hc
  | |- context [bind (Path_unlink ?p) ?k ?s] =>
      rewrite (bind_Path_unlink p k s);
      let fs' := fresh "f" in let e := fresh "e" in let Hu := fresh "Hun" in
      destruct (unlink_missing_ok (fs s) p) as [e|fs'] eqn:Hu
  | |- context [bind (run_command ?c ?wd ?n ?sh) ?k ?s] =>
      let Hch := fresh "Hch" in let Hrest := fresh "Hrest" in
      let Hns := fresh "Hns" in let Ho := fresh "Ho" in
      destruct (bind_run_command c wd n sh k s eq_refl ltac:(done))
        as [(? & ? & ? & ? & Hch & ->)|(? & ? & ? & -> & Hrest & Hns & Ho)]
  | |- context [path_exists ?f ?p] =>
      let Hx := fresh "Hex" in destruct (path_exists f p) eqn:Hx
  | |- context [path_is_dir ?f ?p] =>
      let Hx := fresh "Hdir" in destruct (path_is_dir f p) eqn:Hx
  | |- context [path_is_file ?f ?p] =>
      let Hx := fresh "Hfile" in destruct (path_is_file f p) eqn:Hx
  end.

(** Runs the script in front to its end, along every path. *)
Ltac run_all := unfold or_else, not_; norm; repeat (step; norm).

Tactic Notation "case_mkdir" ident(fs') ident(e) ident(Hm) :=
  match goal with
  | |- context [mkdir_parents ?d ?f ?p] =>
      destruct (mkdir_parents d f p) as [fs' [e|]] eqn:Hm
  end.

Ltac simpl_steps :=
  rewrite ?steps_app, ?steps_cons, ?steps_nil, ?steps_announce, ?steps_stream_lines,
    ?steps_failure_lines;
  repeat match goal with
         | |- context [is_step ?e] =>
             let b := eval vm_compute in (is_step e) in change (is_step e) with b
         end;
  cbn [app].

(** Looks an index up in a list that is given by its elements. *)
Ltac look_up i H :=
  unfold check_failed_line, check_ok_line in *;
  repeat lazymatch type of H with
         | (_ :: _) !! i = Some _ =>
             destruct i as [|i]; cbn [lookup list_lookup] in H
         | (_ :: _) !! (S _) = Some _ => cbn [lookup list_lookup] in H
         | [] !! _ = Some _ => discriminate H
         end.

(** Shows the run in front by its outcome, its final state and its steps. *)
Ltac show_run :=
  rewrite ?trace_after, ?outcome_after, ?final_after; unfold trace, outcome, final;
  cbn [fst snd]; simpl_steps;
  repeat match goal with Hr : steps _ = [] |- _ => rewrite Hr end;
  cbn [app].

(** Works out the last event of a trace that is given by its pieces. *)
Ltac find_last :=
  repeat first [rewrite last_cons | rewrite last_app]; cbn [last].

(** Names the outcome, the final file system, the steps and the last event
    of the run [x], so that each is worked out once. *)
Ltac observe x :=
  let r := fresh "r" in let f := fresh "f" in
  let st := fresh "st" in let l := fresh "l" in
  let Hr := fresh "Hr" in let Hf := fresh "Hf" in
  let Hst := fresh "Hst" in let Hl := fresh "Hl" in
  remember (outcome x) as r eqn:Hr; remember (fs (final x)) as f eqn:Hf;
  remember (steps (trace x)) as st eqn:Hst; remember (last (trace x)) as l eqn:Hl;
  revert Hr Hf Hst Hl.

Ltac observed :=
  show_run; cbn [fs ext]; find_last; intros -> -> -> ->.

(** * The two workflows *)

Section Workflows.
Context {H : Host}.
Implicit Types (s : machine) (t : list event).



(** What a failed step does to a workflow.  A failed check ends the
    workflow in [sys.exit(1)]: at once (it is the last step), or, for the
    summary of the Go tool, after the .NET tool has been run and its summary
    checked as well.  A command that fails is the last step. *)
Lemma csharp_failed_step s i :
  (forall p d,
     steps (trace (run_csharp_workflow s)) !! i = Some (check_failed_line p d) ->
     outcome (run_csharp_workflow s) = Exit 1 /\
     (d <> "C# Go-tool TextSummary" ->
      length (steps (trace (run_csharp_workflow s))) = S i) /\
     (d = "C# Cobertura XML" ->
      last (trace (run_csharp_workflow s)) = Some (check_failed_line p d)) /\
     (d = "C# .NET-tool TextSummary" ->
      last (trace (run_csharp_workflow s)) = Some csharp_summary_error) /\
     (d = "C# Go-tool TextSummary" ->
      deferred (trace (run_csharp_workflow s)) (fs (final (run_csharp_workflow s))) i
        dotnet_rg_command_csharp (CSHARP_REPORTS_FROM_DOTNET_TOOL_DIR /: "Summary.txt")
        "C# .NET-tool TextSummary" csharp_summary_error)) /\
  (forall c wd shell before o,
     steps (trace (run_csharp_workflow s)) !! i = Some (Spawn c wd shell before o) ->
     (forall out err, o <> Exited 0 out err) ->
     outcome (run_csharp_workflow s) = Exit 1 /\
     length (steps (trace (run_csharp_workflow s))) = S i).
Proof.
  unfold deferred.
  remember (run_csharp_workflow s) as x eqn:Hx. observe x. revert Hx.
  unfold run_csharp_workflow. run_all.
  all: intros ->; observed.
  all: split; [intros p d Hi|intros c wd shell before o Hi Hbad]; look_up i Hi.
  all: try (by simplify_eq).
  all: simplify_eq.
  all: try (exfalso; by eapply Hbad).
  all: try done.
  all: (split; [done|]).
  all: split_and?; intros Hd; try discriminate Hd; try done.
  all: try congruence.
  all: eexists _, _; (split; [done|]); split.
  all: try (intros Ho'; exfalso; by eapply Ho').
  all: try done.
  all: intros out' err' Ho'; try (exfalso; by eapply Ho).
  all: cbn [fs ext] in *; split_and?; [|done|done].
  all: match goal with
       | Hck : artifact_ok ?f ?q = _ |- context [artifact_ok ?f ?q] => by rewrite Hck
       end.
Qed.

(** In the Go workflow, moreover, an exception escapes only from one of
    the two [unlink]s, before any command has been run. *)
Lemma go_failed_step s i :
  (forall p d,
     steps (trace (run_go_project_workflow s)) !! i = Some (check_failed_line p d) ->
     outcome (run_go_project_workflow s) = Exit 1 /\
     (d <> "Go-project Go-tool TextSummary" ->
      length (steps (trace (run_go_project_workflow s))) = S i) /\
     (d = "Go native coverage" \/ d = "Go project Cobertura XML" ->
      last (trace (run_go_project_workflow s)) = Some (check_failed_line p d)) /\
     (d = "Go-project .NET-tool TextSummary" ->
      last (trace (run_go_project_workflow s)) = Some go_summary_error) /\
     (d = "Go-project Go-tool TextSummary" ->
      deferred (trace (run_go_project_workflow s))
        (fs (final (run_go_project_workflow s))) i
        dotnet_rg_command_go_proj (GO_PROJECT_REPORTS_FROM_DOTNET_TOOL_DIR /: "Summary.txt")
        "Go-project .NET-tool TextSummary" go_summary_error)) /\
  (forall c wd shell before o,
     steps (trace (run_go_project_workflow s)) !! i = Some (Spawn c wd shell before o) ->
     (forall out err, o <> Exited 0 out err) ->
     outcome (run_go_project_workflow s) = Exit 1 /\
     length (steps (trace (run_go_project_workflow s))) = S i) /\
  (forall x,
     outcome (run_go_project_workflow s) = Raise x ->
     exists e p,
       x = OSError e /\ e <> ENOENT /\
       (p = GO_PROJECT_NATIVE_COVERAGE_FILE \/ p = GO_PROJECT_COBERTURA_XML_FILE) /\
       unlink_missing_ok (fs (final (run_go_project_workflow s))) p = inl e /\
       last (trace (run_go_project_workflow s)) = Some (Unlink p) /\
       Forall (fun e => is_spawn e = false) (steps (trace (run_go_project_workflow s)))).
Proof.
  unfold deferred.
  remember (run_go_project_workflow s) as x eqn:Hx. observe x. revert Hx.
  unfold run_go_project_workflow. run_all.
  all: intros ->; observed.
  all: split_and?;
    [intros p d Hi; look_up i Hi|intros c wd shell before o Hi Hbad; look_up i Hi
    |intros x Hx; try discriminate Hx].
  all: try (by simplify_eq).
  all: simplify_eq.
  all: try (exfalso; by eapply Hbad).
  all: try done.
  all: try (cbn [fs ext] in *;
            match goal with
            | Hun : unlink_missing_ok _ ?q = inl ?e |- ex _ => exists e, q
            end;
            split_and?; [done|by eapply unlink_missing_ok_errno|auto|done|done
                        |by repeat constructor]).
  all: (split; [done|]).
  all: split_and?; intros Hd; try (by destruct Hd); try discriminate Hd; try done.
  all: try congruence.
  all: eexists _, _; (split; [done|]); split.
  all: try (intros Ho'; exfalso; by eapply Ho').
  all: try done.
  all: intros out' err' Ho'; try (exfalso; by eapply Ho).
  all: cbn [fs ext] in *; split_and?; [|done|done].
  all: match goal with
       | Hck : artifact_ok ?f ?q = _ |- context [artifact_ok ?f ?q] => by rewrite Hck
       end.
Qed.


Lemma go_directories_first s :
  (forall j p, steps (trace (run_go_project_workflow s)) !! j = Some (Mkdir p) -> j < 2) /\
  (forall i e, steps (trace (run_go_project_workflow s)) !! i = Some e -> is_spawn e = true ->
     4 <= i /\
     take 2 (steps (trace (run_go_project_workflow s))) =
       [Mkdir GO_PROJECT_REPORTS_FROM_GO_TOOL_DIR;
        Mkdir GO_PROJECT_REPORTS_FROM_DOTNET_TOOL_DIR]) /\
  (forall c wd shell before o,
     steps (trace (run_go_project_workflow s)) !! 4 = Some (Spawn c wd shell before o) ->
     path_is_dir before GO_PROJECT_REPORTS_FROM_GO_TOOL_DIR = true /\
     path_is_dir before GO_PROJECT_REPORTS_FROM_DOTNET_TOOL_DIR = true /\
     path_exists before GO_PROJECT_NATIVE_COVERAGE_FILE = false /\
     path_exists before GO_PROJECT_COBERTURA_XML_FILE = false).
Proof.
  remember (run_go_project_workflow s) as x eqn:Hx. revert Hx.
  unfold run_go_project_workflow. run_all.
  all: intros ->; show_run; cbn [fs ext] in *; split_and?.
  all: try (intros j0 p0 Hj; look_up j0 Hj; simplify_eq; lia).
  all: try (intros i0 ev Hi Hs; look_up i0 Hi; simplify_eq;
            (discriminate Hs || by split; [lia|])).
  all: intros c0 wd0 sh0 before o0 Hi; cbn [lookup list_lookup] in Hi; simplify_eq.
  all: split_and?;
    eauto 8 using mkdir_parents_is_dir, mkdir_parents_keeps_dir, unlink_missing_ok_dir,
      unlink_missing_ok_gone, unlink_missing_ok_absent.
Qed.

Lemma not_under_reports c p d :
  c <> d -> c <> "reports" -> length SCRIPT_ROOT <= length p ->
  ~ (c :: p) `suffix_of` (parent SCRIPT_ROOT /: "reports" /: d).
Proof.
  intros Hd Hr Hlen Hs. unfold joinpath, parent in Hs.
  apply suffix_cons_cases in Hs as [[=]|Hs]; [done|].
  apply suffix_cons_cases in Hs as [[=]|Hs]; [done|].
  apply suffix_length in Hs. simpl in Hs.
  destruct SCRIPT_ROOT; simpl in *; lia.
Qed.

Lemma failed_spawn_position t pre c wd shell before rc out err name i c' wd' shell'
    before' rc' out' err' :
  t = pre ++ Spawn c wd shell before (Exited rc out err)
          :: stream_lines name out err ++ failure_lines name c rc ->
  clean pre ->
  t !! i = Some (Spawn c' wd' shell' before' (Exited rc' out' err')) ->
  rc' <> 0%Z ->
  c' = c /\ rc' = rc /\ out' = out /\ err' = err /\
  drop (S i) t = stream_lines name out err ++ failure_lines name c rc.
Proof.
  intros -> Hpre Hi Hrc.
  assert (spawn_failed (Spawn c' wd' shell' before' (Exited rc' out' err')) = true) as Hfail.
  { simpl. by destruct (Z.eqb_spec rc' 0). }
  destruct (decide (i < length pre)) as [Hlt|Hge].
  - rewrite lookup_app_l in Hi by done.
    eapply Forall_lookup in Hpre; [|done]. simpl in *. congruence.
  - rewrite lookup_app_r in Hi by lia.
    destruct (i - length pre) as [|j] eqn:Hj.
    + simpl in Hi. injection Hi as <- <- <- <- <- <- <-.
      assert (i = length pre) as -> by lia.
      split_and?; try done.
      rewrite drop_app_ge by lia.
      by replace (S (length pre) - length pre) with 1 by lia.
    + simpl in Hi.
      assert (Forall (fun e => is_spawn e = false)
                (stream_lines name out err ++ failure_lines name c rc)) as Hpost.
      { apply Forall_app. split;
          [apply stream_lines_no_spawn|apply failure_lines_no_spawn]. }
      eapply Forall_lookup in Hpost; [|done]. done.
Qed.



(** The Go workflow starts its tests without the coverage files of an
    earlier run: both have been unlinked. *)
Lemma go_workflow_unlinks_stale_coverage s c wd shell before o :
  steps (trace (run_go_project_workflow s)) !! 4 = Some (Spawn c wd shell before o) ->
  path_exists before GO_PROJECT_NATIVE_COVERAGE_FILE = false /\
  path_exists before GO_PROJECT_COBERTURA_XML_FILE = false.
Proof.
  intros Hi. destruct (go_directories_first s) as (_ & _ & Hfirst).
  destruct (Hfirst _ _ _ _ _ Hi) as (_ & _ & Hnative & Hxml). done.
Qed.

End Workflows.

(** * The claims *)

Section Claims.
Context {H : Host}.
Implicit Types (s : machine) (t : list event).

(** C1.  A child of [run_command] that exits with a non-zero status makes
    [run_command] print the child's streams, then the command and the exit
    status, and call [sys.exit(1)]; and in a run of [main], whatever child
    exits with a non-zero status, the process ends with status 1 and
    everything after that child in the trace is that report: no further
    command, check or report generation. *)
Theorem run_command_nonzero_exit_is_fatal :
  (forall c wd name shell s rc out err fs' ext',
     isinstance_str c = shell ->
     child c wd shell (fs s) (ext s) = (Exited rc out err, fs', ext') ->
     rc <> 0%Z ->
     run_command c wd name shell s =
       (Exit 1, Machine fs' ext',
        announce c wd name ++
        Spawn c wd shell (fs s) (Exited rc out err)
          :: stream_lines name out err ++ failure_lines name c rc)) /\
  (forall s i c wd shell before rc out err,
     trace (main s) !! i = Some (Spawn c wd shell before (Exited rc out err)) ->
     rc <> 0%Z ->
     outcome (main s) = Exit 1 /\ exit_status (outcome (main s)) = 1%Z /\
     exists name,
       drop (S i) (trace (main s)) = stream_lines name out err ++ failure_lines name c rc).
Proof.
  split.
  - intros c wd name shell s rc out err fs' ext' Hmode Hchild Hrc.
    rewrite (run_command_eq _ _ _ _ _ Hmode), Hchild. cbv beta iota zeta.
    destruct (Z.eqb_spec rc 0) as [|_]; [done|].
    by rewrite <- app_assoc.
  - intros s i c wd shell before rc out err Hi Hrc.
    destruct (main_fail_fast s) as [Hclean|[Hexit Ht]].
    + eapply Forall_lookup in Hclean; [|done]. simpl in Hclean.
      by destruct (Z.eqb_spec rc 0).
    + destruct Ht as (pre & c0 & wd0 & sh0 & before0 & rc0 & out0 & err0 & name & Ht & Hpre).
      destruct (failed_spawn_position _ _ _ _ _ _ _ _ _ _ _ _ _ _ _ _ _ _ Ht Hpre Hi Hrc)
        as (-> & -> & -> & -> & Hdrop).
      rewrite Hexit. split_and?; [done..|]. by exists name.
Qed.

(** C2, amended.  In both workflows a failed step ends the process in
    [sys.exit(1)].  A command that fails, and a failed check of the
    Cobertura XML, of the native Go coverage or of the .NET tool's summary,
    is the last step of the run; after a failed check of the coverage
    nothing at all follows, after the one of the .NET tool's summary only
    the diagnostic of the summaries.  A failed check of the Go tool's
    summary is not acted on at once: the next step is the run of the .NET
    tool; if that fails, it is the last step; if it exits with 0, its
    summary is checked too, that check is the last step, and the run ends
    with the diagnostic of the summaries. *)
Theorem failed_check_is_fatal_after_generator_B s i :
  (forall p d,
     steps (trace (run_csharp_workflow s)) !! i = Some (check_failed_line p d) ->
     outcome (run_csharp_workflow s) = Exit 1 /\
     (d <> "C# Go-tool TextSummary" ->
      length (steps (trace (run_csharp_workflow s))) = S i) /\
     (d = "C# Cobertura XML" ->
      last (trace (run_csharp_workflow s)) = Some (check_failed_line p d)) /\
     (d = "C# .NET-tool TextSummary" ->
      last (trace (run_csharp_workflow s)) = Some csharp_summary_error) /\
     (d = "C# Go-tool TextSummary" ->
      deferred (trace (run_csharp_workflow s)) (fs (final (run_csharp_workflow s))) i
        dotnet_rg_command_csharp (CSHARP_REPORTS_FROM_DOTNET_TOOL_DIR /: "Summary.txt")
        "C# .NET-tool TextSummary" csharp_summary_error)) /\
  (forall c wd shell before o,
     steps (trace (run_csharp_workflow s)) !! i = Some (Spawn c wd shell before o) ->
     (forall out err, o <> Exited 0 out err) ->
     outcome (run_csharp_workflow s) = Exit 1 /\
     length (steps (trace (run_csharp_workflow s))) = S i) /\
  (forall p d,
     steps (trace (run_go_project_workflow s)) !! i = Some (check_failed_line p d) ->
     outcome (run_go_project_workflow s) = Exit 1 /\
     (d <> "Go-project Go-tool TextSummary" ->
      length (steps (trace (run_go_project_workflow s))) = S i) /\
     (d = "Go native coverage" \/ d = "Go project Cobertura XML" ->
      last (trace (run_go_project_workflow s)) = Some (check_failed_line p d)) /\
     (d = "Go-project .NET-tool TextSummary" ->
      last (trace (run_go_project_workflow s)) = Some go_summary_error) /\
     (d = "Go-project Go-tool TextSummary" ->
      deferred (trace (run_go_project_workflow s))
        (fs (final (run_go_project_workflow s))) i
        dotnet_rg_command_go_proj (GO_PROJECT_REPORTS_FROM_DOTNET_TOOL_DIR /: "Summary.txt")
        "Go-project .NET-tool TextSummary" go_summary_error)) /\
  (forall c wd shell before o,
     steps (trace (run_go_project_workflow s)) !! i = Some (Spawn c wd shell before o) ->
     (forall out err, o <> Exited 0 out err) ->
     outcome (run_go_project_workflow s) = Exit 1 /\
     length (steps (trace (run_go_project_workflow s))) = S i).
Proof.
  destruct (csharp_failed_step s i) as [Hcheck Hcommand].
  destruct (go_failed_step s i) as (Hgo_check & Hgo_command & _).
  split_and?; assumption.
Qed.

(** C3.  [check_file_generated] returns, in every state and without
    touching it, and what it returns is [True] exactly when the path
    resolves to a node of non-zero size; a path that does not exist or has
    zero bytes gives [False], not an exit. *)
Theorem check_file_generated_true_iff_nonempty p description s :
  exists b : bool,
    check_file_generated p description s =
      (Ret b, s, [if b then check_ok_line p description
                  else check_failed_line p description]) /\
    (b = true <->
     path_exists (fs s) p = true /\
     exists n, os_stat (fs s) p = inr n /\ (0 < st_size n)%N).
Proof.
  rewrite check_file_generated_eq. unfold artifact_ok, path_exists.
  destruct (os_stat (fs s) p) as [e|n] eqn:Hs.
  - exists false. split; [done|]. split; [done|]. by intros [? _].
  - destruct (N.eqb_spec (st_size n) 0) as [Hz|Hz]; simpl.
    + exists false. split; [done|]. split; [done|].
      intros [_ (m & [= <-] & Hm)]. lia.
    + exists true. split; [done|]. split; [|done]. intros _. split; [done|].
      exists n. split; [done|lia].
Qed.

(** C4.  A command handed over in the wrong mode (a list with [shell=True],
    a string with [shell=False]) makes [run_command] print one line on
    [sys.stderr] and call [sys.exit(1)]: no child is started and the machine
    is as it was. *)
Theorem run_command_mode_mismatch_aborts c wd name shell s :
  isinstance_str c = negb shell ->
  run_command c wd name shell s = (Exit 1, s, [mode_error_line c shell]) /\
  exit_status (outcome (run_command c wd name shell s)) = 1%Z /\
  Forall (fun e => is_spawn e = false) (trace (run_command c wd name shell s)).
Proof.
  intros Hmode. rewrite (run_command_mode_error _ _ _ _ _ Hmode).
  split_and?; [done..|]. unfold trace, mode_error_line. simpl.
  destruct shell; by repeat constructor.
Qed.



(** C8.  [ensure_dir] on a path that is a directory succeeds and leaves the
    machine as it is; when it succeeds, the path and all its ancestors are
    directories, and a second call succeeds and changes nothing; and in
    every case the file system after two calls is the file system after
    one. *)
Theorem ensure_dir_idempotent p s :
  (path_is_dir (fs s) p = true -> ensure_dir p s = (Ret tt, s, [Mkdir p])) /\
  (forall s1 t,
     ensure_dir p s = (Ret tt, s1, t) ->
     (forall q, q `suffix_of` p -> path_is_dir (fs s1) q = true) /\
     ensure_dir p s1 = (Ret tt, s1, [Mkdir p])) /\
  fs (final (ensure_dir p (final (ensure_dir p s)))) = fs (final (ensure_dir p s)).
Proof.
  assert (forall s0, path_is_dir (fs s0) p = true -> ensure_dir p s0 = (Ret tt, s0, [Mkdir p]))
    as Hdir.
  { intros s0 Hd. rewrite ensure_dir_eq, (mkdir_parents_on_dir _ _ _ Hd). by destruct s0. }
  split_and?; [apply Hdir| |].
  - intros s1 t. rewrite ensure_dir_eq.
    destruct (mkdir_parents dir_st_size (fs s) p) as [fs1 [e|]] eqn:Hm; [done|].
    intros [= <- <-]. apply mkdir_parents_is_dir in Hm.
    split; [intros q Hq; by eapply path_is_dir_suffix|by apply Hdir].
  - rewrite !ensure_dir_eq.
    destruct (mkdir_parents dir_st_size (fs s) p) as [fs1 r] eqn:Hm.
    destruct (mkdir_parents_stable _ _ _ _ _ Hm) as (r' & Hm' & _).
    destruct r as [e|]; unfold final; cbn [fst snd fs]; rewrite Hm'; by destruct r'.
Qed.

(** C9.  When the Go project directory does not exist, the Go workflow ends
    in [sys.exit(1)] without a single [unlink] and without a single child.
    Its run is then this and nothing else: the two report directories are
    made one after the other, and either one of them cannot be made and the
    run ends there with the diagnostic of that directory, or both are made
    and the one line that follows says that the Go project was not found. *)
Theorem go_workflow_stops_without_project s :
  tree_shaped (fs s) ->
  path_exists (fs s) GO_PROJECT_TO_TEST_PATH = false ->
  outcome (run_go_project_workflow s) = Exit 1 /\
  Forall (fun e => is_spawn e = false /\ is_unlink e = false)
    (trace (run_go_project_workflow s)) /\
  go_directories_then s (go_project_not_found s).
Proof.
  intros Htree Hgo. unfold go_directories_then, go_project_not_found.
  unfold run_go_project_workflow. norm.
  rewrite bind_ensure_dir.
  case_mkdir fs1 e1 H1.
  { rewrite outcome_after, trace_after. unfold outcome, trace; cbn [fst snd app].
    split_and?; [done|by repeat constructor|done]. }
  norm. rewrite bind_ensure_dir. cbn [fs ext].
  case_mkdir fs2 e2 H2.
  { rewrite !outcome_after, !trace_after. unfold outcome, trace; cbn [fst snd app].
    split_and?; [done|by repeat constructor|done]. }
  unfold not_. norm.
  assert (path_exists fs2 GO_PROJECT_TO_TEST_PATH = false) as ->.
  { unfold path_exists.
    destruct (os_stat fs2 GO_PROJECT_TO_TEST_PATH) as [|n] eqn:Hs; [done|].
    apply os_stat_lookup in Hs.
    rewrite (mkdir_parents_lookup_other _ _ _ _ _ _ H2),
      (mkdir_parents_lookup_other _ _ _ _ _ _ H1) in Hs
      by (apply not_under_reports; done).
    unfold path_exists in Hgo. by rewrite (tree_shaped_resolves _ _ _ Htree Hs) in Hgo. }
  norm. rewrite !outcome_after, !trace_after. unfold outcome, trace; cbn [fst snd app].
  split_and?; [done|by repeat constructor|done| |].
  - eapply mkdir_parents_keeps_dir; [done|]. by eapply mkdir_parents_is_dir.
  - by eapply mkdir_parents_is_dir.
Qed.


End Claims.

(** * The claims on concrete hosts *)

Module Tests_fail.
#[local] Instance host_tests_fail : Host := demo_host tests_fail.

(** C1, on the concrete host whose test run exits with status 1. *)
Lemma run_command_nonzero_exit_is_fatal_witness :
  (exists s' t,
     run_command dotnet_test_command None "dotnet test (C#)" false (demo_machine tests_fail) =
       (Exit 1, s', t)) /\
  outcome (main (demo_machine tests_fail)) = Exit 1 /\
  exit_status (outcome (main (demo_machine tests_fail))) = 1%Z /\
  exists name,
    drop 10 (trace (main (demo_machine tests_fail))) =
      stream_lines name "ok" EmptyString ++ failure_lines name dotnet_test_command 1.
Proof.
  split.
  - do 2 eexists.
    eapply (proj1 run_command_nonzero_exit_is_fatal); [reflexivity|reflexivity|lia].
  - eapply (proj2 run_command_nonzero_exit_is_fatal (demo_machine tests_fail) 9
              dotnet_test_command None false
              (fs (final (for_each
                            [CSHARP_COVERAGE_OUTPUT_DIR; CSHARP_REPORTS_FROM_GO_TOOL_DIR;
                             CSHARP_REPORTS_FROM_DOTNET_TOOL_DIR]
                            ensure_dir (demo_machine tests_fail)))));
      [reflexivity|lia].
Defined.

End Tests_fail.

Module Summary_missing.
#[local] Instance host_summary_missing : Host := demo_host summary_missing.

(** C2 as stated fails: the Go tool writes no summary for the C# project,
    the check fails, and the .NET tool is run all the same. *)
Lemma generator_B_runs_after_failed_check :
  ~ stops_before_generator_B
      (trace (run_csharp_workflow (demo_machine summary_missing)))
      (check_failed_line (CSHARP_REPORTS_FROM_GO_TOOL_DIR /: "Summary.txt")
         "C# Go-tool TextSummary")
      dotnet_rg_command_csharp.
Proof.
  intros Hstops.
  assert (command_of <$> steps (trace (run_csharp_workflow (demo_machine summary_missing))) !! 7
          = Some (Some dotnet_rg_command_csharp)) as Hcmd by (vm_compute; reflexivity).
  destruct (steps (trace (run_csharp_workflow (demo_machine summary_missing))) !! 7)
    as [e|] eqn:He; [|discriminate Hcmd].
  injection Hcmd as Hcmd.
  assert (7 < 6); [|lia].
  eapply (Hstops 6 7 e); [vm_compute; reflexivity|exact He|exact Hcmd].
Qed.

(** C2 amended, on the same host: the check of the Go tool's summary fails
    at step 6, the .NET tool runs as step 7 and exits with 0, its summary is
    checked as step 8, the last one, and the run ends in [sys.exit(1)] with
    the diagnostic of the summaries. *)
Lemma failed_check_is_fatal_after_generator_B_witness :
  outcome (run_csharp_workflow (demo_machine summary_missing)) = Exit 1 /\
  outcome_of <$> steps (trace (run_csharp_workflow (demo_machine summary_missing))) !! 7 =
    Some (Some (Exited 0 "ok" EmptyString)) /\
  steps (trace (run_csharp_workflow (demo_machine summary_missing))) !! 8 =
    Some (check_ok_line (CSHARP_REPORTS_FROM_DOTNET_TOOL_DIR /: "Summary.txt")
            "C# .NET-tool TextSummary") /\
  length (steps (trace (run_csharp_workflow (demo_machine summary_missing)))) = 9 /\
  last (trace (run_csharp_workflow (demo_machine summary_missing))) =
    Some csharp_summary_error.
Proof.
  assert (steps (trace (run_csharp_workflow (demo_machine summary_missing))) !! 6 =
          Some (check_failed_line (CSHARP_REPORTS_FROM_GO_TOOL_DIR /: "Summary.txt")
                  "C# Go-tool TextSummary")) as Hfailed by (vm_compute; reflexivity).
  assert (outcome_of <$>
            steps (trace (run_csharp_workflow (demo_machine summary_missing))) !! 7 =
          Some (Some (Exited 0 "ok" EmptyString))) as Hb by (vm_compute; reflexivity).
  destruct (proj1 (failed_check_is_fatal_after_generator_B
                     (demo_machine summary_missing) 6)
              (CSHARP_REPORTS_FROM_GO_TOOL_DIR /: "Summary.txt")
              "C# Go-tool TextSummary" Hfailed) as (Hexit & _ & _ & _ & Hnext).
  destruct (Hnext eq_refl) as (before & o & H7 & _ & Hchecked).
  rewrite H7 in Hb. injection Hb as ->.
  destruct (Hchecked "ok" EmptyString eq_refl) as (H8 & Hlen & Hlast).
  split; [exact Hexit|]. split; [by rewrite H7|].
  split; [exact H8|]. split; [exact Hlen|exact Hlast].
Defined.

End Summary_missing.

Module Coverage_not_written.
#[local] Instance host_coverage_not_written : Host := demo_host coverage_not_written.

(** C5 fails on the C# workflow: a coverage file left by an earlier run is
    never unlinked, the test run exits with 0 and writes nothing, and the
    check passes on the stale file; the workflow ends as a success. *)
Theorem csharp_workflow_passes_on_stale_coverage :
  artifact_ok stale_fs CSHARP_COBERTURA_XML_PATH = true /\
  (forall fs0,
     child dotnet_test_command None false fs0 0 = (Exited 0 "ok" EmptyString, fs0, 1)) /\
  outcome (run_csharp_workflow (stale_machine coverage_not_written)) = Ret tt /\
  List.filter is_unlink (trace (run_csharp_workflow (stale_machine coverage_not_written))) = [] /\
  steps (trace (run_csharp_workflow (stale_machine coverage_not_written))) !! 4 =
    Some (check_ok_line CSHARP_COBERTURA_XML_PATH "C# Cobertura XML") /\
  fs (final (run_csharp_workflow (stale_machine coverage_not_written))) !! CSHARP_COBERTURA_XML_PATH =
    Some (Node Regular 7).
Proof. split_and?; try reflexivity. Qed.

End Coverage_not_written.

Module All_good.
#[local] Instance host_all_good : Host := demo_host all_good.




(** C4, on a list handed over with [shell=True]. *)
Lemma run_command_mode_mismatch_aborts_witness :
  run_command (CmdList ["go"; "test"]) None "go test" true (demo_machine all_good) =
    (Exit 1, demo_machine all_good, [mode_error_line (CmdList ["go"; "test"]) true]) /\
  exit_status (outcome (run_command (CmdList ["go"; "test"]) None "go test" true
                          (demo_machine all_good))) = 1%Z /\
  Forall (fun e => is_spawn e = false)
    (trace (run_command (CmdList ["go"; "test"]) None "go test" true (demo_machine all_good))).
Proof. apply run_command_mode_mismatch_aborts. reflexivity. Defined.

(** C8, on the Go project directory of the concrete host, which exists,
    and on a report directory, which does not. *)
Lemma ensure_dir_idempotent_witness :
  ensure_dir ["Go"; "Testprojects"; "repo"] (demo_machine all_good) =
    (Ret tt, demo_machine all_good, [Mkdir ["Go"; "Testprojects"; "repo"]]) /\
  path_is_dir (fs (final (ensure_dir ["x"; "reports"; "repo"] (demo_machine all_good))))
    ["reports"; "repo"] = true.
Proof.
  split.
  - apply (proj1 (ensure_dir_idempotent ["Go"; "Testprojects"; "repo"]
                    (demo_machine all_good))).
    reflexivity.
  - refine (proj1 (proj1 (proj2 (ensure_dir_idempotent ["x"; "reports"; "repo"]
                                   (demo_machine all_good)))
                     (final (ensure_dir ["x"; "reports"; "repo"] (demo_machine all_good)))
                     (trace (ensure_dir ["x"; "reports"; "repo"] (demo_machine all_good)))
                     _) ["reports"; "repo"] _).
    + reflexivity.
    + by apply suffix_cons_r.
Defined.

(** C9, on a file system that has the root directory only: both report
    directories are made, and the run is the four events below. *)
Lemma go_workflow_stops_without_project_witness :
  outcome (run_go_project_workflow (bare_machine all_good)) = Exit 1 /\
  Forall (fun e => is_spawn e = false /\ is_unlink e = false)
    (trace (run_go_project_workflow (bare_machine all_good))) /\
  trace (run_go_project_workflow (bare_machine all_good)) =
    [go_start_line; Mkdir GO_PROJECT_REPORTS_FROM_GO_TOOL_DIR;
     Mkdir GO_PROJECT_REPORTS_FROM_DOTNET_TOOL_DIR;
     Print sys_stderr [Txt "❌ Error: Go project to test not found at ";
                       Txt (path_str GO_PROJECT_TO_TEST_PATH)]] /\
  path_is_dir (fs (final (run_go_project_workflow (bare_machine all_good))))
    GO_PROJECT_REPORTS_FROM_GO_TOOL_DIR = true /\
  path_is_dir (fs (final (run_go_project_workflow (bare_machine all_good))))
    GO_PROJECT_REPORTS_FROM_DOTNET_TOOL_DIR = true.
Proof.
  destruct (go_workflow_stops_without_project (bare_machine all_good) eq_refl eq_refl)
    as (Hexit & Hquiet & Hrun).
  change (go_project_not_found (bare_machine all_good)
            (fs (final (run_go_project_workflow (bare_machine all_good))))) in Hrun.
  destruct Hrun as (Hrun & Hd1 & Hd2).
  split; [exact Hexit|]. split; [exact Hquiet|].
  split; [exact (f_equal trace Hrun)|]. split; [exact Hd1|exact Hd2].
Defined.



End All_good.
